(** * Range overlap and date labellers of the PySpark workshop

    Shallow embedding of
      - [exercises/a_spark_demo/f_common_business_logic_methods.py]
        ([ranges_overlap]) and
      - [exercises/c_labellers/dates_solution.py]
        ([is_belgian_holiday], [label_weekend], [label_holidays],
        [label_holidays2], [label_holidays3]).

    The Python functions only build Spark column expressions and chain
    DataFrame transformations, so the development first fixes a small
    model of the part of Spark they call: typed values with SQL nulls,
    column expressions with an analysis step ([typeof]) and a per-row
    evaluator ([eval]), and the DataFrame operations [withColumn],
    [join] on a column name, [na_fill] and [createDataFrame].  Frames are
    materialised: what Spark reports when an action runs is reported by
    the transformation itself. *)

From Stdlib Require Import ZArith List String Ascii Bool Lia PeanoNat.
Import ListNotations.

Set Implicit Arguments.

(** ** Errors *)

(** [AnalysisException]: a column name that does not resolve or that is
    ambiguous.  [PythonException]: an exception raised inside Python
    code (a UDF, or the row check of [createDataFrame]).  [Unsupported]:
    an expression whose operand types differ from the ones handled here;
    Spark would either insert an implicit cast or reject it, and neither
    is modelled. *)
Inductive error : Type :=
| AnalysisException
| PythonException
| Unsupported.

Inductive result (A : Type) : Type :=
| Ok (a : A)
| Err (e : error).

Arguments Ok {A} a.
Arguments Err {A} e.

Definition bind {A B : Type} (m : result A) (k : A -> result B) : result B :=
  match m with
  | Ok a => k a
  | Err e => Err e
  end.

Notation "x <- m ;; k" := (bind m (fun x => k))
  (at level 61, m at next level, right associativity).

Fixpoint mapM {A B : Type} (f : A -> result B) (l : list A) : result (list B) :=
  match l with
  | [] => Ok []
  | x :: xs => y <- f x ;; ys <- mapM f xs ;; Ok (y :: ys)
  end.

(** ** Values and types *)

(** Dates are Spark's [DateType] values: days since 1970-01-01.  Spark's
    [IntegerType] and [LongType] are both [LongType] here; no arithmetic
    is done on them, so their width plays no role. *)
Inductive DataType : Type :=
| NullType
| DateType
| BooleanType
| LongType
| StringType.

Inductive value : Type :=
| VNull
| VDate (days : Z)
| VBool (b : bool)
| VLong (n : Z)
| VString (s : string).

Definition DataType_eqb (s t : DataType) : bool :=
  match s, t with
  | NullType, NullType
  | DateType, DateType
  | BooleanType, BooleanType
  | LongType, LongType
  | StringType, StringType => true
  | _, _ => false
  end.

Definition type_of_value (v : value) : DataType :=
  match v with
  | VNull => NullType
  | VDate _ => DateType
  | VBool _ => BooleanType
  | VLong _ => LongType
  | VString _ => StringType
  end.

(** A value fits a column of type [t] when it is null or of type [t]. *)
Definition has_type (t : DataType) (v : value) : bool :=
  match v with
  | VNull => true
  | _ => DataType_eqb (type_of_value v) t
  end.

(** Ordering of two non-null values of one type; [None] otherwise. *)
Definition value_compare (x y : value) : option comparison :=
  match x, y with
  | VDate a, VDate b => Some (Z.compare a b)
  | VLong a, VLong b => Some (Z.compare a b)
  | VBool a, VBool b => Some (Nat.compare (Nat.b2n a) (Nat.b2n b))
  | VString a, VString b => Some (String.compare a b)
  | _, _ => None
  end.

Definition value_eqb (x y : value) : bool :=
  match value_compare x y with
  | Some Eq => true
  | _ => false
  end.

(** ** The calendar behind [DateType] *)

(** Day number of a civil date (proleptic Gregorian calendar), the
    inverse of [java.time.LocalDate.ofEpochDay]. *)
Definition days_from_civil (y m d : Z) : Z :=
  let y' := (if m <=? 2 then y - 1 else y)%Z in
  let era := (y' / 400)%Z in
  let yoe := (y' - era * 400)%Z in
  let mp := ((m + 9) mod 12)%Z in
  let doy := ((153 * mp + 2) / 5 + d - 1)%Z in
  let doe := (yoe * 365 + yoe / 4 - yoe / 100 + doy)%Z in
  (era * 146097 + doe - 719468)%Z.

(** [DayOfWeek.eval]:
    [LocalDate.ofEpochDay(d).getDayOfWeek.plus(1).getValue].  The ISO
    ordinal (0 = Monday) is [floorMod(d + 3, 7)]; [plus(1)] moves it one
    day on, which makes Sunday 1 and Saturday 7. *)
Definition day_of_week (d : Z) : Z :=
  let iso_ordinal := ((d + 3) mod 7)%Z in
  ((iso_ordinal + 1) mod 7 + 1)%Z.

(** ** Three-valued logic as the specification words it *)

Module Tri.

Inductive tri : Type := T | F | U.

Definition of_bool (b : bool) : tri := if b then T else F.

(** A comparison against an absent bound is unknown. *)
Definition gt (x y : option Z) : tri :=
  match x, y with
  | Some a, Some b => of_bool (Z.gtb a b)
  | _, _ => U
  end.

Definition lt (x y : option Z) : tri :=
  match x, y with
  | Some a, Some b => of_bool (Z.ltb a b)
  | _, _ => U
  end.

(** [unknown OR true = true], [unknown OR false = unknown],
    [unknown OR unknown = unknown]. *)
Definition or (p q : tri) : tri :=
  match p, q with
  | T, _ => T
  | _, T => T
  | F, F => F
  | _, _ => U
  end.

(** [NOT unknown = unknown]. *)
Definition not (p : tri) : tri :=
  match p with
  | T => F
  | F => T
  | U => U
  end.

(** Coalescing with a default: the default replaces unknown. *)
Definition coalesce (p : tri) (default : bool) : bool :=
  match p with
  | T => true
  | F => false
  | U => default
  end.

End Tri.

(** An interval with optional bounds. *)
Record Interval : Type := mkInterval {
  start : option Z;
  stop : option Z
}.

(** [raw = NOT ((a.start > b.stop) OR (a.stop < b.start))], collapsed
    with default [true]. *)
Definition spec_raw (a b : Interval) : Tri.tri :=
  Tri.not (Tri.or (Tri.gt (start a) (stop b)) (Tri.lt (stop a) (start b))).

Definition spec_overlaps (a b : Interval) : bool :=
  Tri.coalesce (spec_raw a b) true.

(** ** Schemas, rows and frames *)

(** A field is a name and a type.  The nullable flag of Spark's fields
    is not tracked: rows carry their nulls, and none of the functions
    below reads the flag. *)
Record StructField : Type := mkField {
  name : string;
  dataType : DataType
}.

Definition Row : Type := list value.

Record DataFrame : Type := mkFrame {
  schema : list StructField;
  rows : list Row
}.

(** A row conforms to a schema when it has one value of the right type
    per field. *)
Fixpoint row_conforms (sch : list StructField) (r : Row) : bool :=
  match sch, r with
  | [], [] => true
  | f :: sch', v :: r' => has_type (dataType f) v && row_conforms sch' r'
  | _, _ => false
  end.

Definition wf_frame (df : DataFrame) : bool :=
  forallb (row_conforms (schema df)) (rows df).

(** ** Name resolution *)

Definition to_lower (c : ascii) : ascii :=
  let n := nat_of_ascii c in
  if (65 <=? n)%nat && (n <=? 90)%nat then ascii_of_nat (n + 32) else c.

Fixpoint lower (s : string) : string :=
  match s with
  | EmptyString => EmptyString
  | String c s' => String (to_lower c) (lower s')
  end.

(** ** Column expressions *)

(** The expressions the two files build: [col], [lit], the Python
    operators [>], [<], [|] and [~] of [Column], [coalesce] (binary
    here; [coalesce(a, b, c)] is [coalesce(a, coalesce(b, c))]),
    [dayofweek], [isin] over literals, and a Python UDF with its
    declared return type. *)
Inductive Column : Type :=
| col (colName : string)
| lit (v : value)
| col_gt (a b : Column)
| col_lt (a b : Column)
| col_or (a b : Column)
| col_not (a : Column)
| coalesce (a b : Column)
| dayofweek (c : Column)
| isin (c : Column) (vs : list value)
| udf (f : value -> result value) (returnType : DataType) (c : Column).

(** Per-value semantics of the operators.  Comparison is
    null-intolerant; [Or] and [Not] follow [Or.eval] and [Not.eval];
    [In.eval] returns null for a null value, [true] on a match, null
    when there is no match but the list holds a null. *)
Definition eval_cmp (want : comparison) (x y : value) : result value :=
  match x, y with
  | VNull, _ | _, VNull => Ok VNull
  | _, _ =>
      match value_compare x y with
      | Some c =>
          Ok (VBool (match c, want with
                     | Gt, Gt | Lt, Lt => true
                     | _, _ => false
                     end))
      | None => Err Unsupported
      end
  end.

Definition eval_or (x y : value) : result value :=
  match x, y with
  | VBool a, VBool b => Ok (VBool (a || b))
  | VBool true, VNull | VNull, VBool true => Ok (VBool true)
  | VBool false, VNull | VNull, VBool false | VNull, VNull => Ok VNull
  | _, _ => Err Unsupported
  end.

Definition eval_not (x : value) : result value :=
  match x with
  | VNull => Ok VNull
  | VBool b => Ok (VBool (negb b))
  | _ => Err Unsupported
  end.

Definition eval_coalesce (x y : value) : value :=
  match x with
  | VNull => y
  | _ => x
  end.

Definition eval_dayofweek (x : value) : result value :=
  match x with
  | VNull => Ok VNull
  | VDate d => Ok (VLong (day_of_week d))
  | _ => Err Unsupported
  end.

Definition is_null (v : value) : bool :=
  match v with
  | VNull => true
  | _ => false
  end.

Definition eval_isin (x : value) (vs : list value) : value :=
  match x with
  | VNull => VNull
  | _ =>
      if existsb (value_eqb x) vs then VBool true
      else if existsb is_null vs then VNull
      else VBool false
  end.

(** Types two operands may have together: equal, or one of them the
    type of a null literal. *)
Definition common_type (s t : DataType) : option DataType :=
  match s, t with
  | NullType, _ => Some t
  | _, NullType => Some s
  | _, _ => if DataType_eqb s t then Some s else None
  end.

Definition is_boolean (t : DataType) : bool :=
  match t with
  | BooleanType | NullType => true
  | _ => false
  end.

Fixpoint find_index {A : Type} (p : A -> bool) (l : list A) : option nat :=
  match l with
  | [] => None
  | x :: l' =>
      if p x then Some 0%nat
      else match find_index p l' with
           | Some i => Some (S i)
           | None => None
           end
  end.

Definition remove_nth {A : Type} (i : nat) (l : list A) : list A :=
  firstn i l ++ skipn (S i) l.

Definition field_at (sch : list StructField) (i : nat) : StructField :=
  nth i sch (mkField "" NullType).

(** [range(lo, hi)] of Python. *)
Definition range (lo hi : Z) : list Z :=
  map (fun k => (lo + Z.of_nat k)%Z) (seq 0 (Z.to_nat (hi - lo))).

(** The days of civil year [y], first to last. *)
Definition dates_of_year (y : Z) : list Z :=
  range (days_from_civil y 1 1) (days_from_civil (y + 1) 1 1).

(** [d] is a day of one of the [years]. *)
Definition in_years (years : list Z) (d : Z) : bool :=
  existsb (fun y => (days_from_civil y 1 1 <=? d)%Z
                    && (d <? days_from_civil (y + 1) 1 1)%Z) years.

Inductive JoinType : Type := Inner | LeftOuter.

(** ** Sample data

    A calendar with three holidays, two of them inside 2015-2019, and
    frames with a date column: a Tuesday holiday, a Saturday, a
    Wednesday outside the year range that is a holiday, and a null. *)
Definition sample_calendar (d : Z) : bool :=
  existsb (Z.eqb d)
          [days_from_civil 2018 1 1; days_from_civil 2018 12 25;
           days_from_civil 2020 1 1].

Definition sample_schema : list StructField :=
  [mkField "id" LongType; mkField "date" DateType].

Definition sample_frame : DataFrame :=
  mkFrame sample_schema
          [[VLong 1; VDate (days_from_civil 2018 12 25)];
           [VLong 2; VDate (days_from_civil 2018 5 12)];
           [VLong 3; VDate (days_from_civil 2020 1 1)];
           [VLong 4; VNull]].


(** A frame that already carries the holiday attribute. *)
Definition sample_labelled : DataFrame :=
  mkFrame [mkField "date" DateType; mkField "is_belgian_holiday" BooleanType]
          [[VDate (days_from_civil 2018 12 25); VBool true];
           [VDate (days_from_civil 2018 5 12); VBool false]].

(** The sample frame without its row of the missing date. *)
Definition sample_frame_present : DataFrame :=
  mkFrame sample_schema
          [[VLong 1; VDate (days_from_civil 2018 12 25)];
           [VLong 2; VDate (days_from_civil 2018 5 12)];
           [VLong 3; VDate (days_from_civil 2020 1 1)]].

Section Spark.

(** The session's [spark.sql.caseSensitive]; Spark's default is
    [false]. *)
Variable caseSensitive : bool.

(** The analyzer's resolver: equality of names, up to the case of
    ASCII letters unless the session is case sensitive. *)
Definition resolver (a b : string) : bool :=
  if caseSensitive then String.eqb a b
  else String.eqb (lower a) (lower b).

Definition matches (n : string) (f : StructField) : bool :=
  resolver (name f) n.

(** [df.col(n)] / [col(n)] against a schema: the position of the one
    field the name resolves to.  No field, or a second one further on,
    is an [AnalysisException] (unresolved, ambiguous). *)
Definition resolve (sch : list StructField) (n : string) : result nat :=
  match find_index (matches n) sch with
  | None => Err AnalysisException
  | Some i =>
      if existsb (matches n) (skipn (S i) sch) then Err AnalysisException
      else Ok i
  end.

(** Analysis: the type of an expression over a schema.  [dayofweek]
    takes a date; a string column, which Spark would cast, is not
    modelled, and a boolean or integer column is rejected as Spark
    rejects it. *)
Fixpoint typeof (sch : list StructField) (c : Column) : result DataType :=
  match c with
  | col n => i <- resolve sch n ;; Ok (dataType (field_at sch i))
  | lit v => Ok (type_of_value v)
  | col_gt a b | col_lt a b =>
      s <- typeof sch a ;; t <- typeof sch b ;;
      match common_type s t with
      | Some _ => Ok BooleanType
      | None => Err Unsupported
      end
  | col_or a b =>
      s <- typeof sch a ;; t <- typeof sch b ;;
      if is_boolean s && is_boolean t then Ok BooleanType
      else Err Unsupported
  | col_not a =>
      s <- typeof sch a ;;
      if is_boolean s then Ok BooleanType else Err Unsupported
  | coalesce a b =>
      s <- typeof sch a ;; t <- typeof sch b ;;
      match common_type s t with
      | Some u => Ok u
      | None => Err Unsupported
      end
  | dayofweek a =>
      s <- typeof sch a ;;
      match s with
      | DateType | NullType => Ok LongType
      | StringType => Err Unsupported
      | BooleanType | LongType => Err AnalysisException
      end
  | isin a vs =>
      s <- typeof sch a ;;
      if forallb (has_type s) vs then Ok BooleanType else Err Unsupported
  | udf _ t a => _ <- typeof sch a ;; Ok t
  end.

(** Evaluation of an expression on one row. *)
Fixpoint eval (sch : list StructField) (r : Row) (c : Column) : result value :=
  match c with
  | col n => i <- resolve sch n ;; Ok (nth i r VNull)
  | lit v => Ok v
  | col_gt a b => x <- eval sch r a ;; y <- eval sch r b ;; eval_cmp Gt x y
  | col_lt a b => x <- eval sch r a ;; y <- eval sch r b ;; eval_cmp Lt x y
  | col_or a b => x <- eval sch r a ;; y <- eval sch r b ;; eval_or x y
  | col_not a => x <- eval sch r a ;; eval_not x
  | coalesce a b =>
      x <- eval sch r a ;; y <- eval sch r b ;; Ok (eval_coalesce x y)
  | dayofweek a => x <- eval sch r a ;; eval_dayofweek x
  | isin a vs => x <- eval sch r a ;; Ok (eval_isin x vs)
  | udf f _ a => x <- eval sch r a ;; f x
  end.

(** ** DataFrame operations *)

(** [Dataset.withColumn]: every field the name resolves to is replaced
    by the new column, under the new name; when there is none the
    column is added last. *)
Definition put_field (sch : list StructField) (n : string) (t : DataType)
  : list StructField :=
  if existsb (matches n) sch
  then map (fun f => if matches n f then mkField n t else f) sch
  else sch ++ [mkField n t].

Fixpoint replace_values (sch : list StructField) (n : string) (v : value)
  (r : Row) : Row :=
  match sch, r with
  | f :: sch', x :: r' =>
      (if matches n f then v else x) :: replace_values sch' n v r'
  | _, _ => []
  end.

Definition put_value (sch : list StructField) (n : string) (v : value)
  (r : Row) : Row :=
  if existsb (matches n) sch then replace_values sch n v r else r ++ [v].

Definition withColumn (df : DataFrame) (colName : string) (c : Column)
  : result DataFrame :=
  t <- typeof (schema df) c ;;
  rs <- mapM (fun r => v <- eval (schema df) r c ;;
                       Ok (put_value (schema df) colName v r)) (rows df) ;;
  Ok (mkFrame (put_field (schema df) colName t) rs).

(** [SparkSession.createDataFrame(data, schema)]: PySpark verifies
    every row against the schema and raises on a mismatch. *)
Definition createDataFrame (data : list Row) (sch : list StructField)
  : result DataFrame :=
  if forallb (row_conforms sch) data then Ok (mkFrame sch data)
  else Err PythonException.

(** [left.join(right, on=name, how=...)]: a USING join on one column.
    Each side's key is the first field the name resolves to; the
    output lists the left key, the other left fields, the other right
    fields.  Keys are equal when both are non-null and equal.  Rows
    come out in the order of the left frame, matches in the order of
    the right frame (Spark promises no order). *)
Definition join_row (i j : nat) (l r : Row) : Row :=
  nth i l VNull :: remove_nth i l ++ remove_nth j r.

Definition join_rows (how : JoinType) (i j width : nat)
  (right : list Row) (l : Row) : list Row :=
  let hits := filter (fun r => value_eqb (nth i l VNull) (nth j r VNull)) right in
  match hits, how with
  | [], LeftOuter => [join_row i j l (repeat VNull width)]
  | _, _ => map (join_row i j l) hits
  end.

Definition join (left right : DataFrame) (on : string) (how : JoinType)
  : result DataFrame :=
  match find_index (matches on) (schema left),
        find_index (matches on) (schema right) with
  | Some i, Some j =>
      let lf := field_at (schema left) i in
      let rf := field_at (schema right) j in
      if DataType_eqb (dataType lf) (dataType rf) then
        Ok (mkFrame
              (lf :: remove_nth i (schema left) ++ remove_nth j (schema right))
              (flat_map (join_rows how i j (List.length (schema right)) (rows right))
                        (rows left)))
      else Err Unsupported
  | _, _ => Err AnalysisException
  end.

(** [df.na.fill(b, subset=names)]: each name is resolved with
    [df.col]; the resolved columns of boolean type have their nulls
    replaced by [b], the others are left alone. *)
Fixpoint fill_row (targets : list nat) (v : value) (i : nat) (r : Row) : Row :=
  match r with
  | [] => []
  | x :: r' =>
      (if existsb (Nat.eqb i) targets then eval_coalesce x v else x)
        :: fill_row targets v (S i) r'
  end.

Definition na_fill (df : DataFrame) (b : bool) (subset : list string)
  : result DataFrame :=
  idxs <- mapM (resolve (schema df)) subset ;;
  let targets :=
    filter (fun i => DataType_eqb (dataType (field_at (schema df) i)) BooleanType)
           idxs in
  Ok (mkFrame (schema df) (map (fill_row targets (VBool b) 0) (rows df))).

(** ** f_common_business_logic_methods.py *)

(** [coalesce(~((start1 > stop2) | (stop1 < start2)), lit(True))] *)
Definition ranges_overlap (start1 stop1 start2 stop2 : Column) : Column :=
  coalesce (col_not (col_or (col_gt start1 stop2) (col_lt stop1 start2)))
           (lit (VBool true)).

(** The frame of the file's worked table: four integer columns
    [a], [b], [c], [d], one row per pair of ranges, and
    [ranges_overlap] applied to the four columns. *)
Definition abcd : list StructField :=
  map (fun n => mkField n LongType) ["a"; "b"; "c"; "d"]%string.

Definition bound (x : option Z) : value :=
  match x with
  | Some n => VLong n
  | None => VNull
  end.

Definition interval_row (a b : Interval) : Row :=
  [bound (start a); bound (stop a); bound (start b); bound (stop b)].

Definition overlaps (a b : Interval) : result value :=
  eval abcd (interval_row a b)
       (ranges_overlap (col "a") (col "b") (col "c") (col "d")).

(** The twelve rows the file lists for those who find the logic of
    [ranges_overlap] complex. *)
Definition worked_table : DataFrame :=
  mkFrame abcd
          (map (fun '(a, b, c, d) => [bound a; bound b; bound c; bound d])
               [(Some 0, Some 5, Some (-5), Some (-1));
                (Some 0, Some 5, Some (-5), Some 2);
                (Some 0, Some 5, Some (-5), Some 7);
                (Some 0, Some 5, Some 1, Some 7);
                (Some 0, Some 5, Some 6, Some 7);
                (Some 0, Some 5, Some 2, Some 3);
                (Some 0, Some 5, Some (-5), None);
                (Some 0, Some 5, Some 1, None);
                (Some 0, Some 5, Some 6, None);
                (Some 0, None, Some (-5), Some (-1));
                (Some 0, None, Some (-5), Some 1);
                (Some 0, None, Some 5, Some 10)]%Z).

(** ** dates_solution.py *)

(** The calendar library's rule for Belgium: whether a day is a public
    holiday.  [holidays.BE()] fills itself in, year by year, from this
    rule: on demand when asked about a date, up front for the [years]
    it is given. *)
Variable be_holiday : Z -> bool.

(** The keys of [holidays.BE(years=...)]. *)
Definition holidays_BE (years : list Z) : list Z :=
  nodup Z.eq_dec (flat_map (fun y => filter be_holiday (dates_of_year y)) years).

(** [date in holidays.BE()].  Spark hands a null to the UDF as [None],
    which the library refuses with a [TypeError]; numbers and strings,
    which the library would convert to dates, are not modelled. *)
Definition is_belgian_holiday (date : value) : result value :=
  match date with
  | VDate d => Ok (VBool (be_holiday d))
  | VNull => Err PythonException
  | _ => Err Unsupported
  end.

Definition label_weekend (frame : DataFrame) (colname new_colname : string)
  : result DataFrame :=
  withColumn frame new_colname
             (isin (dayofweek (col colname)) [VLong 1; VLong 7]).

Definition label_holidays (frame : DataFrame) (colname new_colname : string)
  : result DataFrame :=
  let holiday_udf := udf is_belgian_holiday BooleanType in
  withColumn frame new_colname (holiday_udf (col colname)).

Definition label_holidays2 (frame : DataFrame) (colname new_colname : string)
  : result DataFrame :=
  let holidays_be := holidays_BE (range 2015 2020) in
  withColumn frame new_colname (isin (col colname) (map VDate holidays_be)).

Definition label_holidays3 (frame : DataFrame) (colname new_colname : string)
  : result DataFrame :=
  let holidays_be := holidays_BE (range 2015 2020) in
  holidays_frame <-
    createDataFrame (map (fun day => [VDate day; VBool true]) holidays_be)
                    [mkField colname DateType; mkField new_colname BooleanType] ;;
  joined <- join frame holidays_frame colname LeftOuter ;;
  na_fill joined false [new_colname].

(** ** Observations on frames *)

(** The value of row [k], position [j]. *)
Definition cell (df : DataFrame) (k j : nat) : value :=
  nth j (nth k (rows df) []) VNull.

(** Position [j] of the schema holds a field that name [n] resolves
    to. *)
Definition is_col (sch : list StructField) (n : string) (j : nat) : bool :=
  match nth_error sch j with
  | Some f => matches n f
  | None => false
  end.

(** [df.select(c1, c2).collect()] as pairs. *)
Definition select2 (df : DataFrame) (c1 c2 : string)
  : result (list (value * value)) :=
  i <- resolve (schema df) c1 ;;
  j <- resolve (schema df) c2 ;;
  Ok (map (fun r => (nth i r VNull, nth j r VNull)) (rows df)).

(** What the weekend label of a date is to be: true exactly on days 1
    (Sunday) and 7 (Saturday); a missing date has no label. *)
Definition weekend_value (date : value) : value :=
  match date with
  | VDate d => VBool ((day_of_week d =? 1)%Z || (day_of_week d =? 7)%Z)
  | _ => VNull
  end.



(** The labels of the three holiday strategies, as functions of the
    date: the calendar's answer; membership of the precomputed keys,
    with no answer for a missing date; and a hit of the join, a miss
    being filled with [false]. *)
Definition member (d : Z) (l : list Z) : bool := existsb (Z.eqb d) l.

Definition membership_value (keys : list Z) (date : value) : value :=
  match date with
  | VDate d => VBool (member d keys)
  | _ => VNull
  end.

Definition join_value (keys : list Z) (date : value) : value :=
  match date with
  | VDate d => VBool (member d keys)
  | _ => VBool false
  end.

(** The label of the predicate strategy on a date that is there. *)
Definition predicate_value (date : value) : value :=
  match date with
  | VDate d => VBool (be_holiday d)
  | _ => VNull
  end.



(** * Properties *)

Unset Implicit Arguments.

(** ** [ranges_overlap] *)

Lemma eval_cmp_gt_bound (x y : option Z) :
  eval_cmp Gt (bound x) (bound y)
  = Ok (match Tri.gt x y with
        | Tri.T => VBool true
        | Tri.F => VBool false
        | Tri.U => VNull
        end).
Proof.
  destruct x as [a|], y as [b|]; cbn; try reflexivity.
  unfold Z.gtb. destruct (a ?= b)%Z; reflexivity.
Qed.

Lemma eval_cmp_lt_bound (x y : option Z) :
  eval_cmp Lt (bound x) (bound y)
  = Ok (match Tri.lt x y with
        | Tri.T => VBool true
        | Tri.F => VBool false
        | Tri.U => VNull
        end).
Proof.
  destruct x as [a|], y as [b|]; cbn; try reflexivity.
  unfold Z.ltb. destruct (a ?= b)%Z; reflexivity.
Qed.

(** Whatever columns are passed, on a row where they evaluate to the
    bounds of [a] and [b] the expression evaluates to the
    specification's value. *)
Lemma eval_ranges_overlap sch r start1 stop1 start2 stop2 (a b : Interval) :
  eval sch r start1 = Ok (bound (start a)) ->
  eval sch r stop1 = Ok (bound (stop a)) ->
  eval sch r start2 = Ok (bound (start b)) ->
  eval sch r stop2 = Ok (bound (stop b)) ->
  eval sch r (ranges_overlap start1 stop1 start2 stop2)
  = Ok (VBool (spec_overlaps a b)).
Proof.
  intros H1 H2 H3 H4. unfold ranges_overlap, spec_overlaps, spec_raw.
  cbn [eval]. rewrite H1, H2, H3, H4. cbn [bind].
  rewrite eval_cmp_gt_bound, eval_cmp_lt_bound. cbn [bind].
  destruct (Tri.gt (start a) (stop b)), (Tri.lt (stop a) (start b));
    reflexivity.
Qed.

Lemma eval_abcd (a b : Interval) :
  eval abcd (interval_row a b) (col "a") = Ok (bound (start a))
  /\ eval abcd (interval_row a b) (col "b") = Ok (bound (stop a))
  /\ eval abcd (interval_row a b) (col "c") = Ok (bound (start b))
  /\ eval abcd (interval_row a b) (col "d") = Ok (bound (stop b)).
Proof.
  unfold abcd, interval_row, eval, resolve, matches, resolver.
  destruct caseSensitive; cbn; repeat split; reflexivity.
Qed.

Lemma overlaps_eq (a b : Interval) :
  overlaps a b = Ok (VBool (spec_overlaps a b)).
Proof.
  destruct (eval_abcd a b) as (Ha & Hb & Hc & Hd).
  unfold overlaps. now apply eval_ranges_overlap.
Qed.

(** C1. For all intervals [a], [b] with optional bounds,
    [ranges_overlap] on the row that holds their four bounds returns
    the boolean the specification defines: [NOT ((a.start > b.stop) OR
    (a.stop < b.start))] in three-valued logic, unknown when a bound is
    absent, collapsed to [true] when unknown. *)
Theorem overlaps_refines_spec (a b : Interval) :
  overlaps a b = Ok (VBool (spec_overlaps a b)).
Proof.
  destruct (eval_abcd a b) as (Ha & Hb & Hc & Hd).
  unfold overlaps.
  apply eval_ranges_overlap; [exact Ha | exact Hb | exact Hc | exact Hd].
Qed.

(** C3. The seven rows of the truth table. *)
Theorem overlaps_truth_table :
  overlaps (mkInterval (Some 0%Z) (Some 5%Z)) (mkInterval (Some (-5)%Z) (Some (-1)%Z))
    = Ok (VBool false)
  /\ overlaps (mkInterval (Some 0%Z) (Some 5%Z)) (mkInterval (Some (-5)%Z) (Some 2%Z))
    = Ok (VBool true)
  /\ overlaps (mkInterval (Some 0%Z) (Some 5%Z)) (mkInterval (Some 1%Z) (Some 7%Z))
    = Ok (VBool true)
  /\ overlaps (mkInterval (Some 0%Z) (Some 5%Z)) (mkInterval (Some 6%Z) (Some 7%Z))
    = Ok (VBool false)
  /\ overlaps (mkInterval (Some 0%Z) (Some 5%Z)) (mkInterval (Some (-5)%Z) None)
    = Ok (VBool true)
  /\ overlaps (mkInterval (Some 0%Z) None) (mkInterval (Some (-5)%Z) (Some (-1)%Z))
    = Ok (VBool false)
  /\ overlaps (mkInterval (Some 0%Z) None) (mkInterval (Some 5%Z) (Some 10%Z))
    = Ok (VBool true).
Proof.
  unfold overlaps, abcd, interval_row, ranges_overlap, eval, resolve,
    matches, resolver.
  destruct caseSensitive; cbn; repeat split; reflexivity.
Qed.

(** C4. Swapping the two ranges does not change the result, whichever
    bounds are absent. *)
Theorem overlaps_symmetric (a b : Interval) :
  overlaps a b = overlaps b a.
Proof.
  rewrite !overlaps_eq. do 2 f_equal.
  unfold spec_overlaps, spec_raw.
  destruct a as [[s1|] [e1|]], b as [[s2|] [e2|]]; cbn; try reflexivity;
    unfold Z.gtb, Z.ltb;
    try rewrite (Z.compare_antisym s1 e2);
    try rewrite (Z.compare_antisym s2 e1);
    repeat match goal with
           | |- context [(?x ?= ?y)%Z] => destruct (x ?= y)%Z
           end; reflexivity.
Qed.

(** C5. With the four bounds present the result is the finite
    intersection test [a.start <= b.stop AND b.start <= a.stop]. *)
Theorem overlaps_finite (s1 e1 s2 e2 : Z) :
  overlaps (mkInterval (Some s1) (Some e1)) (mkInterval (Some s2) (Some e2))
  = Ok (VBool ((s1 <=? e2)%Z && (s2 <=? e1)%Z)).
Proof.
  rewrite overlaps_eq. do 2 f_equal.
  unfold spec_overlaps, spec_raw. cbn.
  unfold Z.gtb, Z.ltb, Z.leb.
  rewrite (Z.compare_antisym s2 e1).
  destruct (s1 ?= e2)%Z, (s2 ?= e1)%Z; reflexivity.
Qed.

(** ** Names *)

Lemma resolver_refl (a : string) : resolver a a = true.
Proof. unfold resolver. destruct caseSensitive; apply String.eqb_refl. Qed.

Lemma resolver_sym (a b : string) : resolver a b = resolver b a.
Proof. unfold resolver. destruct caseSensitive; apply String.eqb_sym. Qed.

Lemma resolver_trans (a b c : string) :
  resolver a b = true -> resolver b c = true -> resolver a c = true.
Proof.
  unfold resolver. destruct caseSensitive; rewrite !String.eqb_eq; congruence.
Qed.

Lemma matches_self (n : string) (t : DataType) : matches n (mkField n t) = true.
Proof. apply resolver_refl. Qed.

(** Two names that resolve to one field resolve to each other. *)
Lemma matches_both (a b : string) (f : StructField) :
  matches a f = true -> matches b f = true -> resolver a b = true.
Proof.
  unfold matches. intros Ha Hb.
  apply resolver_trans with (b := name f); [now rewrite resolver_sym | exact Hb].
Qed.

Lemma matches_apart (a b : string) (f : StructField) :
  resolver a b = false -> matches a f = true -> matches b f = false.
Proof.
  intros Hab Ha. destruct (matches b f) eqn:Hb; [|reflexivity].
  rewrite (matches_both _ _ _ Ha Hb) in Hab. discriminate.
Qed.

Lemma matches_renamed (a b : string) (t : DataType) :
  resolver a b = false -> matches a (mkField b t) = false.
Proof. unfold matches. cbn. now rewrite resolver_sym. Qed.

(** ** Positions *)

Lemma find_index_None {A} (p : A -> bool) (l : list A) :
  find_index p l = None <-> existsb p l = false.
Proof.
  induction l as [|x l IH]; cbn; [tauto|].
  destruct (p x); cbn; [split; discriminate|].
  destruct (find_index p l); [split; [discriminate|]|tauto].
  intros H. apply IH in H. discriminate.
Qed.

Lemma find_index_at {A} (p : A -> bool) (pre : list A) (x : A) (post : list A) :
  existsb p pre = false -> p x = true ->
  find_index p (pre ++ x :: post) = Some (List.length pre).
Proof.
  intros Hpre Hx. induction pre as [|y pre IH]; cbn in *.
  - now rewrite Hx.
  - apply orb_false_iff in Hpre as [Hy Hpre]. rewrite Hy, (IH Hpre). reflexivity.
Qed.

Lemma find_index_split {A} (p : A -> bool) (l : list A) (i : nat) :
  find_index p l = Some i ->
  exists pre x post,
    l = pre ++ x :: post /\ List.length pre = i
    /\ existsb p pre = false /\ p x = true.
Proof.
  revert i. induction l as [|y l IH]; cbn; intros i H; [discriminate|].
  destruct (p y) eqn:Hy.
  - injection H as <-. exists [], y, l. auto.
  - destruct (find_index p l) as [k|]; [|discriminate].
    injection H as <-.
    destruct (IH k eq_refl) as (pre & x & post & -> & <- & Hpre & Hx).
    exists (y :: pre), x, post. cbn. rewrite Hy, Hpre. auto.
Qed.

Lemma skipn_past {A} (pre : list A) (x : A) (post : list A) :
  skipn (S (List.length pre)) (pre ++ x :: post) = post.
Proof. induction pre as [|y pre IH]; cbn in *; auto. Qed.

Lemma firstn_upto {A} (pre : list A) (x : A) (post : list A) :
  firstn (List.length pre) (pre ++ x :: post) = pre.
Proof. induction pre as [|y pre IH]; cbn in *; congruence. Qed.

Lemma remove_nth_at {A} (pre : list A) (x : A) (post : list A) :
  remove_nth (List.length pre) (pre ++ x :: post) = pre ++ post.
Proof. unfold remove_nth. now rewrite firstn_upto, skipn_past. Qed.

Lemma nth_at {A} (pre : list A) (x : A) (post : list A) (d : A) :
  nth (List.length pre) (pre ++ x :: post) d = x.
Proof. induction pre as [|y pre IH]; cbn in *; auto. Qed.

(** A name resolves to position [i] exactly when the schema splits
    around one matching field. *)
Lemma resolve_at (n : string) (pre : list StructField) (f : StructField)
  (post : list StructField) :
  existsb (matches n) pre = false -> matches n f = true ->
  existsb (matches n) post = false ->
  resolve (pre ++ f :: post) n = Ok (List.length pre).
Proof.
  intros Hpre Hf Hpost. unfold resolve.
  rewrite (find_index_at _ _ _ post Hpre Hf), skipn_past, Hpost. reflexivity.
Qed.

Lemma resolve_split (sch : list StructField) (n : string) (i : nat) :
  resolve sch n = Ok i ->
  exists pre f post,
    sch = pre ++ f :: post /\ List.length pre = i
    /\ existsb (matches n) pre = false /\ matches n f = true
    /\ existsb (matches n) post = false.
Proof.
  unfold resolve. destruct (find_index (matches n) sch) as [k|] eqn:Hk;
    [|discriminate].
  destruct (find_index_split _ _ _ Hk) as (pre & f & post & -> & <- & Hpre & Hf).
  rewrite skipn_past.
  destruct (existsb (matches n) post) eqn:Hpost; [discriminate|].
  intros H. injection H as <-. exists pre, f, post. auto.
Qed.




Lemma resolve_app_nomatch (n : string) (sch : list StructField) (f : StructField) :
  matches n f = false -> resolve (sch ++ [f]) n = resolve sch n.
Proof.
  intros Hf. unfold resolve.
  destruct (find_index (matches n) sch) as [i|] eqn:Hi.
  - destruct (find_index_split _ _ _ Hi) as (pre & x & post & -> & <- & Hpre & Hx).
    rewrite <- app_assoc. cbn [app].
    rewrite (find_index_at _ _ _ _ Hpre Hx), !skipn_past.
    rewrite existsb_app. cbn. now rewrite Hf, !orb_false_r.
  - apply find_index_None in Hi.
    assert (H : find_index (matches n) (sch ++ [f]) = None).
    { apply find_index_None. rewrite existsb_app, Hi. cbn. now rewrite Hf. }
    now rewrite H.
Qed.

(** ** Rows and [withColumn] *)

Lemma row_conforms_length (sch : list StructField) (r : Row) :
  row_conforms sch r = true -> List.length r = List.length sch.
Proof.
  revert r. induction sch as [|f sch IH]; intros [|x r]; cbn;
    try discriminate; [reflexivity|].
  intros H. apply andb_true_iff in H as [_ H]. now rewrite (IH r H).
Qed.

Lemma row_conforms_split (pre : list StructField) (f : StructField)
  (post : list StructField) (r : Row) :
  row_conforms (pre ++ f :: post) r = true ->
  exists rpre x rpost,
    r = rpre ++ x :: rpost /\ List.length rpre = List.length pre
    /\ has_type (dataType f) x = true
    /\ List.length rpost = List.length post.
Proof.
  revert r. induction pre as [|g pre IH]; intros [|y r]; cbn;
    try discriminate.
  - intros H. apply andb_true_iff in H as [Hx H].
    exists [], y, r. repeat split; auto. now apply row_conforms_length.
  - intros H. apply andb_true_iff in H as [_ H].
    destruct (IH r H) as (rpre & x & rpost & -> & Hl & Hx & Hp).
    exists (y :: rpre), x, rpost. cbn. auto.
Qed.

Lemma wf_frame_In (df : DataFrame) (r : Row) :
  wf_frame df = true -> In r (rows df) -> row_conforms (schema df) r = true.
Proof. unfold wf_frame. intros H. now apply forallb_forall. Qed.

Lemma mapM_ok {A B} (f : A -> result B) (g : A -> B) (l : list A) :
  (forall x, In x l -> f x = Ok (g x)) -> mapM f l = Ok (map g l).
Proof.
  induction l as [|x l IH]; cbn; intros H; [reflexivity|].
  rewrite (H x (or_introl eq_refl)). cbn.
  rewrite IH by (intros y Hy; apply H; now right). reflexivity.
Qed.

Lemma nth_map_in {A B} (g : A -> B) (l : list A) (k : nat) (d : A) (e : B) :
  (k < List.length l)%nat -> nth k (map g l) e = g (nth k l d).
Proof.
  intros Hk. rewrite (nth_indep _ e (g d)) by now rewrite length_map.
  apply map_nth.
Qed.

(** The frame [withColumn] returns when the expression analyses and
    evaluates on every row. *)
Lemma withColumn_ok (df : DataFrame) (n : string) (c : Column) (t : DataType)
  (v : Row -> value) :
  typeof (schema df) c = Ok t ->
  (forall r, In r (rows df) -> eval (schema df) r c = Ok (v r)) ->
  withColumn df n c
  = Ok (mkFrame (put_field (schema df) n t)
                (map (fun r => put_value (schema df) n (v r) r) (rows df))).
Proof.
  intros Ht Hv. unfold withColumn. rewrite Ht. cbn [bind].
  rewrite (mapM_ok _ (fun r => put_value (schema df) n (v r) r)).
  - reflexivity.
  - intros r Hr. now rewrite (Hv r Hr).
Qed.

Lemma replace_values_nth (n : string) (v : value) (sch : list StructField)
  (r : Row) (j : nat) (f : StructField) :
  List.length r = List.length sch -> nth_error sch j = Some f ->
  nth j (replace_values sch n v r) VNull
  = if matches n f then v else nth j r VNull.
Proof.
  revert r j. induction sch as [|g sch IH]; intros [|x r] [|j]; cbn;
    try discriminate.
  - intros _ H. now injection H as ->.
  - intros Hl H. apply IH; [now injection Hl | exact H].
Qed.

Lemma replace_values_length (n : string) (v : value) (sch : list StructField)
  (r : Row) :
  List.length r = List.length sch ->
  List.length (replace_values sch n v r) = List.length sch.
Proof.
  revert r. induction sch as [|g sch IH]; intros [|x r]; cbn;
    try discriminate; [reflexivity|].
  intros Hl. now rewrite IH by now injection Hl.
Qed.

Lemma existsb_nth_error {A} (p : A -> bool) (l : list A) (j : nat) (x : A) :
  existsb p l = false -> nth_error l j = Some x -> p x = false.
Proof.
  intros He Hj. apply nth_error_In in Hj.
  destruct (p x) eqn:Hp; [|reflexivity].
  assert (existsb p l = true) by (apply existsb_exists; eauto).
  congruence.
Qed.

(** After [withColumn], every position the name resolves to holds the
    new value. *)
Lemma put_cell (sch : list StructField) (n : string) (t : DataType)
  (v : value) (r : Row) (j : nat) :
  List.length r = List.length sch ->
  is_col (put_field sch n t) n j = true ->
  nth j (put_value sch n v r) VNull = v.
Proof.
  intros Hl. unfold is_col, put_field, put_value.
  destruct (existsb (matches n) sch) eqn:He.
  - rewrite nth_error_map.
    destruct (nth_error sch j) as [f|] eqn:Hj; cbn; [|discriminate].
    rewrite (replace_values_nth n v sch r j f Hl Hj).
    destruct (matches n f) eqn:Hf; [reflexivity|]. now rewrite Hf.
  - destruct (Nat.lt_trichotomy j (List.length sch)) as [Hlt|[->|Hgt]].
    + rewrite nth_error_app1 by exact Hlt.
      destruct (nth_error sch j) as [f|] eqn:Hj.
      * now rewrite (existsb_nth_error _ _ _ _ He Hj).
      * discriminate.
    + intros _. rewrite <- Hl. now rewrite nth_middle.
    + rewrite nth_error_app2 by lia.
      destruct (j - List.length sch)%nat as [|[|m]] eqn:Hm; cbn;
        try discriminate. lia.
Qed.


Lemma put_field_has (sch : list StructField) (n : string) (t : DataType) :
  exists j, is_col (put_field sch n t) n j = true.
Proof.
  unfold put_field, is_col. destruct (existsb (matches n) sch) eqn:He.
  - apply existsb_exists in He as (f & Hin & Hf).
    apply In_nth_error in Hin as (j & Hj). exists j.
    rewrite nth_error_map, Hj. cbn. now rewrite Hf, matches_self.
  - exists (List.length sch).
    rewrite nth_error_app2 by lia. rewrite Nat.sub_diag. cbn.
    apply matches_self.
Qed.


(** ** The date column *)

Lemma date_value (v : value) :
  has_type DateType v = true -> v = VNull \/ exists d, v = VDate d.
Proof. destruct v; cbn; try discriminate; eauto. Qed.

(** What the rest needs of a frame with a date column at [i]: each row
    has the schema's length and a date or a null at [i]. *)
Lemma date_column (df : DataFrame) (n : string) (i : nat) (r : Row) :
  wf_frame df = true ->
  resolve (schema df) n = Ok i ->
  dataType (field_at (schema df) i) = DateType ->
  In r (rows df) ->
  List.length r = List.length (schema df)
  /\ has_type DateType (nth i r VNull) = true.
Proof.
  intros Hwf Hres Hty Hr.
  pose proof (wf_frame_In df r Hwf Hr) as Hc.
  split; [now apply row_conforms_length|].
  destruct (resolve_split _ _ _ Hres) as (pre & f & post & Hs & <- & _).
  rewrite Hs in Hc, Hty. unfold field_at in Hty. rewrite nth_at in Hty.
  destruct (row_conforms_split _ _ _ _ Hc) as (rpre & x & rpost & -> & Hl & Hx & _).
  rewrite <- Hl, nth_at. now rewrite <- Hty.
Qed.

Lemma value_eqb_long (a b : Z) : value_eqb (VLong a) (VLong b) = (a =? b)%Z.
Proof. unfold value_eqb, value_compare. now rewrite Z.eqb_compare. Qed.

Lemma value_eqb_date (a b : Z) : value_eqb (VDate a) (VDate b) = (a =? b)%Z.
Proof. unfold value_eqb, value_compare. now rewrite Z.eqb_compare. Qed.

Lemma weekend_expr_type (sch : list StructField) (n : string) (i : nat) :
  resolve sch n = Ok i -> dataType (field_at sch i) = DateType ->
  typeof sch (isin (dayofweek (col n)) [VLong 1; VLong 7]) = Ok BooleanType.
Proof. intros Hres Hty. cbn. rewrite Hres. cbn. rewrite Hty. reflexivity. Qed.

Lemma weekend_expr_value (sch : list StructField) (n : string) (i : nat)
  (r : Row) :
  resolve sch n = Ok i -> has_type DateType (nth i r VNull) = true ->
  eval sch r (isin (dayofweek (col n)) [VLong 1; VLong 7])
  = Ok (weekend_value (nth i r VNull)).
Proof.
  intros Hres Hd. cbn [eval]. rewrite Hres. cbn [bind].
  destruct (date_value _ Hd) as [-> | [d ->]]; cbn [eval_dayofweek bind];
    [reflexivity|].
  unfold eval_isin, weekend_value. cbn [existsb].
  rewrite !value_eqb_long, orb_false_r.
  destruct ((day_of_week d =? 1)%Z || (day_of_week d =? 7)%Z); reflexivity.
Qed.




(** ** The precomputed holidays *)

Lemma In_range (lo hi d : Z) : In d (range lo hi) <-> (lo <= d < hi)%Z.
Proof.
  unfold range. rewrite in_map_iff. split.
  - intros (k & <- & Hk). apply in_seq in Hk. lia.
  - intros H. exists (Z.to_nat (d - lo)). split; [lia|].
    apply in_seq. lia.
Qed.

Lemma member_In (d : Z) (l : list Z) : member d l = true <-> In d l.
Proof.
  unfold member. rewrite existsb_exists. split.
  - intros (x & Hx & He). apply Z.eqb_eq in He. now subst.
  - intros H. exists d. split; [exact H | apply Z.eqb_refl].
Qed.

(** The keys are the holidays that fall in one of the years. *)
Lemma In_holidays_BE (years : list Z) (d : Z) :
  In d (holidays_BE years)
  <-> be_holiday d = true /\ in_years years d = true.
Proof.
  unfold holidays_BE, in_years. rewrite nodup_In, in_flat_map, existsb_exists.
  split.
  - intros (y & Hy & Hd). apply filter_In in Hd as [Hd Hh].
    apply In_range in Hd. split; [exact Hh|]. exists y. split; [exact Hy|].
    apply andb_true_iff. split; [apply Z.leb_le | apply Z.ltb_lt]; lia.
  - intros (Hh & y & Hy & Hd). apply andb_true_iff in Hd as [H1 H2].
    apply Z.leb_le in H1. apply Z.ltb_lt in H2.
    exists y. split; [exact Hy|]. apply filter_In. split; [|exact Hh].
    apply In_range. lia.
Qed.

Lemma member_holidays_BE (years : list Z) (d : Z) :
  member d (holidays_BE years) = be_holiday d && in_years years d.
Proof.
  apply eq_true_iff_eq. rewrite member_In, In_holidays_BE, andb_true_iff.
  reflexivity.
Qed.

Lemma NoDup_holidays_BE (years : list Z) : NoDup (holidays_BE years).
Proof. apply NoDup_nodup. Qed.

(** ** The expressions of [label_holidays] and [label_holidays2] *)

Lemma udf_expr_type (sch : list StructField) (n : string) (i : nat) :
  resolve sch n = Ok i ->
  typeof sch (udf is_belgian_holiday BooleanType (col n)) = Ok BooleanType.
Proof. intros Hres. cbn. now rewrite Hres. Qed.

Lemma udf_expr_value (sch : list StructField) (n : string) (i : nat) (r : Row) :
  resolve sch n = Ok i ->
  eval sch r (udf is_belgian_holiday BooleanType (col n))
  = is_belgian_holiday (nth i r VNull).
Proof. intros Hres. cbn. now rewrite Hres. Qed.

Lemma isin_expr_type (sch : list StructField) (n : string) (i : nat)
  (keys : list Z) :
  resolve sch n = Ok i -> dataType (field_at sch i) = DateType ->
  typeof sch (isin (col n) (map VDate keys)) = Ok BooleanType.
Proof.
  intros Hres Hty. cbn. rewrite Hres. cbn. rewrite Hty.
  assert (H : forallb (has_type DateType) (map VDate keys) = true).
  { apply forallb_forall. intros v Hv. apply in_map_iff in Hv as (d & <- & _).
    reflexivity. }
  now rewrite H.
Qed.

Lemma existsb_dates (d : Z) (keys : list Z) :
  existsb (value_eqb (VDate d)) (map VDate keys) = member d keys.
Proof.
  unfold member. induction keys as [|k keys IH]; cbn [map existsb];
    [reflexivity|].
  now rewrite value_eqb_date, IH.
Qed.

Lemma no_null_dates (keys : list Z) : existsb is_null (map VDate keys) = false.
Proof. induction keys as [|k keys IH]; cbn; auto. Qed.

Lemma isin_expr_value (sch : list StructField) (n : string) (i : nat)
  (keys : list Z) (r : Row) :
  resolve sch n = Ok i -> has_type DateType (nth i r VNull) = true ->
  eval sch r (isin (col n) (map VDate keys))
  = Ok (membership_value keys (nth i r VNull)).
Proof.
  intros Hres Hd. cbn [eval]. rewrite Hres. cbn [bind].
  destruct (date_value _ Hd) as [-> | [d ->]]; [reflexivity|].
  unfold eval_isin, membership_value.
  rewrite existsb_dates, no_null_dates. now destruct (member d keys).
Qed.

Lemma label_holidays2_ok (frame : DataFrame) (colname new_colname : string)
  (i : nat) :
  wf_frame frame = true ->
  resolve (schema frame) colname = Ok i ->
  dataType (field_at (schema frame) i) = DateType ->
  label_holidays2 frame colname new_colname
  = Ok (mkFrame
          (put_field (schema frame) new_colname BooleanType)
          (map (fun r =>
                  put_value (schema frame) new_colname
                    (membership_value (holidays_BE (range 2015 2020))
                                      (nth i r VNull)) r)
               (rows frame))).
Proof.
  intros Hwf Hres Hty. unfold label_holidays2.
  apply (withColumn_ok frame new_colname _ BooleanType
           (fun r => membership_value (holidays_BE (range 2015 2020))
                                      (nth i r VNull))).
  - now apply isin_expr_type with (i := i).
  - intros r Hr. apply isin_expr_value; [exact Hres|].
    now apply (date_column frame colname i r Hwf Hres Hty Hr).
Qed.

(** C8. On a frame whose [colname] is a date column, the membership
    strategy returns a frame, raising nothing, and in it every row
    whose date lies in none of the years 2015 to 2019 has [false] in
    each column named [new_colname], whatever the calendar says of that
    date. *)
Theorem label_holidays2_out_of_range (frame : DataFrame)
  (colname new_colname : string) (i : nat) :
  wf_frame frame = true ->
  resolve (schema frame) colname = Ok i ->
  dataType (field_at (schema frame) i) = DateType ->
  exists out,
    label_holidays2 frame colname new_colname = Ok out
    /\ List.length (rows out) = List.length (rows frame)
    /\ (exists j, is_col (schema out) new_colname j = true)
    /\ (forall k j d, (k < List.length (rows frame))%nat ->
          is_col (schema out) new_colname j = true ->
          cell frame k i = VDate d ->
          in_years (range 2015 2020) d = false ->
          cell out k j = VBool false).
Proof.
  intros Hwf Hres Hty. eexists. split.
  { now apply label_holidays2_ok with (i := i). }
  cbn [schema rows]. split; [apply length_map|].
  split; [apply put_field_has|].
  intros k j d Hk Hj Hd Hout. unfold cell in *. cbn [rows].
  rewrite (nth_map_in (B := list value) _ (rows frame) k (@nil value)
             (@nil value) Hk).
  rewrite put_cell with (t := BooleanType); [| |exact Hj].
  - rewrite Hd. cbn [membership_value].
    now rewrite member_holidays_BE, Hout, andb_false_r.
  - apply (date_column frame colname i _ Hwf Hres Hty). now apply nth_In.
Qed.

(** ** The join of [label_holidays3] *)

Lemma filter_of_map {A B} (p : B -> bool) (g : A -> B) (l : list A) :
  filter p (map g l) = map g (filter (fun x => p (g x)) l).
Proof.
  induction l as [|x l IH]; cbn; [reflexivity|].
  rewrite IH. now destruct (p (g x)).
Qed.

Lemma filter_none {A} (p : A -> bool) (l : list A) :
  (forall x, In x l -> p x = false) -> filter p l = [].
Proof.
  induction l as [|x l IH]; cbn; intros H; [reflexivity|].
  rewrite (H x (or_introl eq_refl)). apply IH. intros y Hy. apply H. now right.
Qed.

(** A list without repetition holds a key at most once. *)
Lemma filter_key (d : Z) (l : list Z) :
  NoDup l -> filter (Z.eqb d) l = if member d l then [d] else [].
Proof.
  unfold member. induction 1 as [|x l Hx Hnd IH]; cbn; [reflexivity|].
  destruct (Z.eqb_spec d x) as [->|Hne]; cbn.
  - f_equal. apply filter_none. intros y Hy.
    apply Z.eqb_neq. intros ->. contradiction.
  - exact IH.
Qed.

Lemma flat_map_single {A B} (g : A -> B) (l : list A) :
  flat_map (fun x => [g x]) l = map g l.
Proof. induction l as [|x l IH]; cbn; [reflexivity|]. now rewrite IH. Qed.

(** One row of the left join against the holiday frame: the row's key,
    its other values, and [true] on a hit, null on a miss. *)
Lemma join_rows_holidays (i : nat) (keys : list Z) (l : Row) :
  NoDup keys ->
  join_rows LeftOuter i 0 2
            (map (fun day => [VDate day; VBool true]) keys) l
  = [nth i l VNull :: remove_nth i l
       ++ [match nth i l VNull with
           | VDate d => if member d keys then VBool true else VNull
           | _ => VNull
           end]].
Proof.
  intros Hnd. unfold join_rows. rewrite filter_of_map. cbn [nth].
  destruct (nth i l VNull) as [|d|b|z|s] eqn:Hk.
  2: { rewrite (filter_ext _ (Z.eqb d)) by (intros; apply value_eqb_date).
       rewrite (filter_key d keys Hnd).
       destruct (member d keys); cbn; unfold join_row; now rewrite Hk. }
  all: rewrite filter_none by (intros; reflexivity);
    cbn; unfold join_row; now rewrite Hk.
Qed.

Lemma fill_row_last (v : value) (body : Row) (y : value) (from : nat) :
  fill_row [(from + List.length body)%nat] v from (body ++ [y])
  = body ++ [eval_coalesce y v].
Proof.
  revert from. induction body as [|x body IH]; intros from; cbn.
  - now rewrite Nat.add_0_r, Nat.eqb_refl.
  - replace (from + S (List.length body))%nat
      with (S from + List.length body)%nat by lia.
    rewrite IH.
    destruct (Nat.eqb_spec from (S from + List.length body)); [lia|].
    reflexivity.
Qed.

Lemma existsb_around {A} (p : A -> bool) (pre : list A) (x : A) (post : list A) :
  existsb p (pre ++ x :: post) = false ->
  existsb p pre = false /\ p x = false /\ existsb p post = false.
Proof.
  rewrite existsb_app. cbn. intros H.
  apply orb_false_iff in H as [H1 H]. apply orb_false_iff in H as [H2 H3].
  auto.
Qed.

Lemma holiday_rows_conform (colname new_colname : string) (keys : list Z) :
  forallb (row_conforms [mkField colname DateType; mkField new_colname BooleanType])
          (map (fun day => [VDate day; VBool true]) keys) = true.
Proof.
  apply forallb_forall. intros r Hr.
  apply in_map_iff in Hr as (d & <- & _). reflexivity.
Qed.

(** The frame the join strategy returns on a frame that has a date
    column [colname] and no column [new_colname] yet. *)
Lemma label_holidays3_ok (frame : DataFrame) (colname new_colname : string)
  (i : nat) :
  wf_frame frame = true ->
  resolve (schema frame) colname = Ok i ->
  dataType (field_at (schema frame) i) = DateType ->
  existsb (matches new_colname) (schema frame) = false ->
  label_holidays3 frame colname new_colname
  = Ok (mkFrame
          (field_at (schema frame) i :: remove_nth i (schema frame)
             ++ [mkField new_colname BooleanType])
          (map (fun r =>
                  nth i r VNull :: remove_nth i r
                    ++ [join_value (holidays_BE (range 2015 2020))
                                   (nth i r VNull)])
               (rows frame))).
Proof.
  intros Hwf Hres Hty Hfresh.
  destruct frame as [sch rs]. cbn [schema rows] in *.
  destruct (resolve_split _ _ _ Hres) as (pre & f & post & -> & <- & Hpre & Hf & Hpost).
  unfold field_at in *. rewrite nth_at in *. rewrite remove_nth_at.
  destruct (existsb_around _ _ _ _ Hfresh) as (Fpre & Ff & Fpost).
  unfold label_holidays3, createDataFrame.
  rewrite holiday_rows_conform. cbn [bind].
  unfold join. cbn [schema rows].
  rewrite (find_index_at _ _ _ post Hpre Hf).
  cbn [find_index]. rewrite matches_self. unfold field_at.
  rewrite nth_at. cbn [nth dataType]. rewrite Hty. cbn [DataType_eqb bind].
  rewrite remove_nth_at.
  change (remove_nth 0 [mkField colname DateType; mkField new_colname BooleanType])
    with [mkField new_colname BooleanType].
  cbn [List.length].
  rewrite (flat_map_ext _ _
             (fun l => join_rows_holidays (List.length pre) _ l
                         (NoDup_holidays_BE (range 2015 2020)))).
  rewrite flat_map_single.
  unfold na_fill. cbn [schema rows mapM].
  assert (Hnew : resolve (f :: (pre ++ post) ++ [mkField new_colname BooleanType])
                         new_colname
                 = Ok (List.length (f :: pre ++ post))).
  { change (f :: (pre ++ post) ++ [mkField new_colname BooleanType])
      with ((f :: pre ++ post) ++ mkField new_colname BooleanType :: []).
    apply resolve_at; [|apply matches_self|reflexivity].
    cbn. now rewrite Ff, existsb_app, Fpre, Fpost. }
  rewrite Hnew. cbn [bind filter]. unfold field_at.
  change (f :: (pre ++ post) ++ [mkField new_colname BooleanType])
    with ((f :: pre ++ post) ++ mkField new_colname BooleanType :: []).
  rewrite (nth_at (f :: pre ++ post)). cbn [dataType DataType_eqb].
  f_equal. f_equal. rewrite map_map. apply map_ext_in. intros r Hr.
  pose proof (wf_frame_In _ r Hwf Hr) as Hc. cbn [schema] in Hc.
  destruct (row_conforms_split _ _ _ _ Hc) as (rpre & x & rpost & -> & Hl & Hx & Hp).
  rewrite <- Hl, nth_at, remove_nth_at.
  change (x :: (rpre ++ rpost) ++ ?t) with ((x :: rpre ++ rpost) ++ t).
  replace (List.length (f :: pre ++ post))
    with (0 + List.length (x :: rpre ++ rpost))%nat
    by (cbn; rewrite !length_app; lia).
  rewrite fill_row_last. cbn [app]. do 2 f_equal.
  rewrite Hty in Hx.
  destruct (date_value _ Hx) as [-> | [d ->]]; [reflexivity|].
  unfold join_value.
  now destruct (member d (holidays_BE (range 2015 2020))).
Qed.

(** ** Reading the joined frame *)

Lemma fresh_apart (sch : list StructField) (colname new_colname : string)
  (i : nat) :
  resolve sch colname = Ok i ->
  existsb (matches new_colname) sch = false ->
  resolver colname new_colname = false.
Proof.
  intros Hres Hfresh.
  destruct (resolve_split _ _ _ Hres) as (pre & f & post & -> & _ & _ & Hf & _).
  destruct (existsb_around _ _ _ _ Hfresh) as (_ & Ff & _).
  destruct (resolver colname new_colname) eqn:He; [|reflexivity].
  unfold matches in *.
  now rewrite (resolver_trans _ _ _ Hf He) in Ff.
Qed.


Lemma remove_nth_length {A} (l : list A) (i : nat) :
  (i < List.length l)%nat ->
  List.length (remove_nth i l) = (List.length l - 1)%nat.
Proof.
  intros Hi. unfold remove_nth.
  rewrite length_app, length_firstn, length_skipn. lia.
Qed.

Lemma last_nth {A} (l : list A) (i : nat) (d v : A) :
  (i < List.length l)%nat ->
  nth (List.length l) (nth i l d :: remove_nth i l ++ [v]) d = v.
Proof.
  intros Hi.
  replace (List.length l) with (List.length (nth i l d :: remove_nth i l))
    by (cbn; rewrite remove_nth_length by exact Hi; lia).
  change (nth i l d :: remove_nth i l ++ [v])
    with ((nth i l d :: remove_nth i l) ++ [v]).
  apply nth_middle.
Qed.

Lemma resolve_lt (sch : list StructField) (n : string) (i : nat) :
  resolve sch n = Ok i -> (i < List.length sch)%nat.
Proof.
  intros H. destruct (resolve_split _ _ _ H) as (pre & f & post & -> & <- & _).
  rewrite length_app. cbn. lia.
Qed.

(** In the joined schema the new name resolves to the last position
    and the date name to the first. *)
Lemma joined_schema_new (sch : list StructField) (colname new_colname : string)
  (i : nat) :
  resolve sch colname = Ok i ->
  existsb (matches new_colname) sch = false ->
  resolve (field_at sch i :: remove_nth i sch ++ [mkField new_colname BooleanType])
          new_colname
  = Ok (List.length sch).
Proof.
  intros Hres Hfresh.
  destruct (resolve_split _ _ _ Hres) as (pre & f & post & -> & <- & _).
  destruct (existsb_around _ _ _ _ Hfresh) as (Fpre & Ff & Fpost).
  unfold field_at. rewrite nth_at, remove_nth_at.
  replace (List.length (pre ++ f :: post))
    with (List.length (f :: pre ++ post))
    by (cbn; rewrite !length_app; cbn; lia).
  change (f :: (pre ++ post) ++ [mkField new_colname BooleanType])
    with ((f :: pre ++ post) ++ mkField new_colname BooleanType :: []).
  apply resolve_at; [|apply matches_self|reflexivity].
  cbn. now rewrite Ff, existsb_app, Fpre, Fpost.
Qed.

Lemma joined_schema_date (sch : list StructField) (colname new_colname : string)
  (i : nat) :
  resolve sch colname = Ok i ->
  resolver colname new_colname = false ->
  resolve (field_at sch i :: remove_nth i sch ++ [mkField new_colname BooleanType])
          colname
  = Ok 0%nat.
Proof.
  intros Hres Hap.
  destruct (resolve_split _ _ _ Hres) as (pre & f & post & -> & <- & Hpre & Hf & Hpost).
  unfold field_at. rewrite nth_at, remove_nth_at.
  apply (resolve_at colname [] f); [reflexivity|exact Hf|].
  rewrite !existsb_app, Hpre, Hpost. cbn.
  now rewrite (matches_renamed _ _ _ Hap).
Qed.



(** ** The three strategies side by side *)

Lemma select2_appended (sch : list StructField) (rs : list Row)
  (colname new_colname : string) (i : nat) (t : DataType) (v : Row -> value) :
  (forall r, In r rs -> List.length r = List.length sch) ->
  resolve sch colname = Ok i ->
  existsb (matches new_colname) sch = false ->
  select2 (mkFrame (put_field sch new_colname t)
                   (map (fun r => put_value sch new_colname (v r) r) rs))
          colname new_colname
  = Ok (map (fun r => (nth i r VNull, v r)) rs).
Proof.
  intros Hlen Hres Hfresh.
  pose proof (fresh_apart _ _ _ _ Hres Hfresh) as Hap.
  pose proof (resolve_lt _ _ _ Hres) as Hi.
  unfold select2, put_field, put_value. rewrite Hfresh. cbn [schema rows].
  rewrite resolve_app_nomatch by now apply matches_renamed.
  rewrite Hres. cbn [bind].
  rewrite (resolve_at new_colname sch (mkField new_colname t) [] Hfresh
             (matches_self _ _) eq_refl).
  cbn [bind]. f_equal. rewrite map_map. apply map_ext_in. intros r Hr.
  rewrite <- (Hlen r Hr), nth_middle.
  now rewrite app_nth1 by (rewrite (Hlen r Hr); exact Hi).
Qed.

Lemma select2_joined (sch : list StructField) (rs : list Row)
  (colname new_colname : string) (i : nat) (v : Row -> value) :
  (forall r, In r rs -> List.length r = List.length sch) ->
  resolve sch colname = Ok i ->
  existsb (matches new_colname) sch = false ->
  select2 (mkFrame (field_at sch i :: remove_nth i sch
                      ++ [mkField new_colname BooleanType])
                   (map (fun r => nth i r VNull :: remove_nth i r ++ [v r]) rs))
          colname new_colname
  = Ok (map (fun r => (nth i r VNull, v r)) rs).
Proof.
  intros Hlen Hres Hfresh.
  pose proof (fresh_apart _ _ _ _ Hres Hfresh) as Hap.
  pose proof (resolve_lt _ _ _ Hres) as Hi.
  unfold select2. cbn [schema rows].
  rewrite (joined_schema_date _ _ _ _ Hres Hap). cbn [bind].
  rewrite (joined_schema_new _ _ _ _ Hres Hfresh). cbn [bind].
  f_equal. rewrite map_map. apply map_ext_in. intros r Hr.
  rewrite <- (Hlen r Hr), last_nth by (rewrite (Hlen r Hr); exact Hi).
  reflexivity.
Qed.


(** ** Labelling a labelled frame *)















Lemma resolve_ambiguous_end (body : list StructField) (f : StructField)
  (n : string) :
  existsb (matches n) body = true -> matches n f = true ->
  resolve (body ++ [f]) n = Err AnalysisException.
Proof.
  intros Hb Hf. unfold resolve.
  destruct (find_index (matches n) body) as [k|] eqn:Hk.
  - destruct (find_index_split _ _ _ Hk) as (pre & x & post & -> & <- & Hpre & Hx).
    rewrite <- app_assoc. cbn [app].
    rewrite (find_index_at _ _ _ _ Hpre Hx), skipn_past.
    rewrite existsb_app. cbn [existsb]. now rewrite Hf, orb_true_r.
  - apply find_index_None in Hk. congruence.
Qed.

(** The join strategy on a frame that already has the attribute: the
    join adds a second column of that name and the fill cannot tell
    them apart. *)
Lemma label_holidays3_ambiguous (frame : DataFrame)
  (colname new_colname : string) (i : nat) :
  resolve (schema frame) colname = Ok i ->
  dataType (field_at (schema frame) i) = DateType ->
  resolver colname new_colname = false ->
  existsb (matches new_colname) (schema frame) = true ->
  label_holidays3 frame colname new_colname = Err AnalysisException.
Proof.
  intros Hres Hty Hap Hhas.
  destruct frame as [sch rs]. cbn [schema rows] in *.
  destruct (resolve_split _ _ _ Hres) as (pre & f & post & -> & <- & Hpre & Hf & Hpost).
  unfold field_at in Hty. rewrite nth_at in Hty.
  pose proof (matches_apart colname new_colname f Hap Hf) as Ff.
  unfold label_holidays3, createDataFrame.
  rewrite holiday_rows_conform. cbn [bind].
  unfold join. cbn [schema rows].
  rewrite (find_index_at _ _ _ post Hpre Hf).
  cbn [find_index]. rewrite matches_self. unfold field_at.
  rewrite nth_at. cbn [nth dataType]. rewrite Hty. cbn [DataType_eqb bind].
  rewrite remove_nth_at.
  change (remove_nth 0 [mkField colname DateType; mkField new_colname BooleanType])
    with [mkField new_colname BooleanType].
  unfold na_fill. cbn [schema rows mapM].
  change (f :: (pre ++ post) ++ [mkField new_colname BooleanType])
    with ((f :: pre ++ post) ++ [mkField new_colname BooleanType]).
  rewrite resolve_ambiguous_end; [reflexivity| |apply matches_self].
  rewrite existsb_app in Hhas. cbn [existsb] in *.
  rewrite Ff in *. cbn [orb] in *. now rewrite existsb_app.
Qed.



(** A frame the join strategy has labelled cannot be labelled by it
    again. *)
Lemma label_holidays3_relabel (frame : DataFrame) (colname new_colname : string)
  (i : nat) :
  wf_frame frame = true ->
  resolve (schema frame) colname = Ok i ->
  dataType (field_at (schema frame) i) = DateType ->
  existsb (matches new_colname) (schema frame) = false ->
  exists g,
    label_holidays3 frame colname new_colname = Ok g
    /\ label_holidays3 g colname new_colname = Err AnalysisException.
Proof.
  intros Hwf Hres Hty Hfresh.
  pose proof (fresh_apart _ _ _ _ Hres Hfresh) as Hap.
  eexists. split.
  - now apply label_holidays3_ok with (i := i).
  - apply label_holidays3_ambiguous with (i := 0%nat); cbn [schema].
    + now apply joined_schema_date.
    + exact Hty.
    + exact Hap.
    + cbn [existsb]. rewrite existsb_app. cbn [existsb].
      now rewrite matches_self, !orb_true_r.
Qed.



(** * Further properties *)

(** ** [ranges_overlap]: when two ranges are kept apart *)

Lemma spec_overlaps_false (a b : Interval) :
  spec_overlaps a b = false
  <-> (exists s e, start a = Some s /\ stop b = Some e /\ (e < s)%Z)
      \/ (exists e s, stop a = Some e /\ start b = Some s /\ (e < s)%Z).
Proof.
  destruct a as [[s1|] [e1|]], b as [[s2|] [e2|]];
    unfold spec_overlaps, spec_raw; cbn [start stop Tri.gt Tri.lt];
    repeat match goal with
           | |- context [(?x >? ?y)%Z] => destruct (Z.gtb_spec x y)
           | |- context [(?x <? ?y)%Z] => destruct (Z.ltb_spec x y)
           end; cbn;
    (split;
     [ intros Hfalse; try discriminate;
       first [ left; do 2 eexists;
               split; [reflexivity | split; [reflexivity | lia]]
             | right; do 2 eexists;
               split; [reflexivity | split; [reflexivity | lia]] ]
     | intros [(s & e & Hs & He & Hlt) | (e & s & He & Hs & Hlt)];
       try discriminate; try reflexivity;
       injection Hs as <-; injection He as <-; lia ]).
Qed.

(** Two ranges are reported apart only on the evidence of two bounds
    that are there: the first range starts after the second stops, or
    stops before the second starts.  Whatever expressions give the four
    bounds, the result on a row is [true] or [false], never a null and
    never an error. *)
Theorem ranges_overlap_false_iff (sch : list StructField) (r : Row)
  (start1 stop1 start2 stop2 : Column) (a b : Interval) :
  eval sch r start1 = Ok (bound (start a)) ->
  eval sch r stop1 = Ok (bound (stop a)) ->
  eval sch r start2 = Ok (bound (start b)) ->
  eval sch r stop2 = Ok (bound (stop b)) ->
  (exists v, eval sch r (ranges_overlap start1 stop1 start2 stop2) = Ok (VBool v))
  /\ (eval sch r (ranges_overlap start1 stop1 start2 stop2) = Ok (VBool false)
      <-> (exists s e, start a = Some s /\ stop b = Some e /\ (e < s)%Z)
          \/ (exists e s, stop a = Some e /\ start b = Some s /\ (e < s)%Z)).
Proof.
  intros H1 H2 H3 H4.
  rewrite (eval_ranges_overlap sch r _ _ _ _ a b H1 H2 H3 H4).
  split; [eauto|].
  rewrite <- spec_overlaps_false. split.
  - intros H. now injection H.
  - intros ->. reflexivity.
Qed.

(** Widening a range, by moving a bound outwards or dropping it, never
    loses an overlap. *)
Theorem overlaps_widen (a a' b : Interval) :
  (start a' = None
   \/ exists s s', start a = Some s /\ start a' = Some s' /\ (s' <= s)%Z) ->
  (stop a' = None
   \/ exists e e', stop a = Some e /\ stop a' = Some e' /\ (e <= e')%Z) ->
  overlaps a b = Ok (VBool true) ->
  overlaps a' b = Ok (VBool true).
Proof.
  intros Hstart Hstop. rewrite !overlaps_eq. intros H. injection H as H.
  do 2 f_equal. destruct (spec_overlaps a' b) eqn:Hw; [reflexivity|].
  exfalso. apply spec_overlaps_false in Hw.
  assert (Hf : spec_overlaps a b = false); [|congruence].
  apply spec_overlaps_false.
  destruct Hw as [(s' & e & Hs' & He & Hlt) | (e' & s & He' & Hs & Hlt)].
  - destruct Hstart as [Hn | (s & s'' & Hs & Hs'' & Hle)]; [congruence|].
    left. exists s, e. repeat split; [exact Hs | exact He |].
    assert (s'' = s') by congruence. lia.
  - destruct Hstop as [Hn | (e & e'' & He & He'' & Hle)]; [congruence|].
    right. exists e, s. repeat split; [exact He | exact Hs |].
    assert (e'' = e') by congruence. lia.
Qed.

(** A range overlaps itself unless both its bounds are there and in the
    wrong order: the function does not check that a range starts before
    it stops. *)
Theorem overlaps_self (a : Interval) :
  (overlaps a a = Ok (VBool false)
   <-> exists s e, start a = Some s /\ stop a = Some e /\ (e < s)%Z)
  /\ (overlaps a a = Ok (VBool true)
      <-> ~ exists s e, start a = Some s /\ stop a = Some e /\ (e < s)%Z).
Proof.
  assert (Hf : spec_overlaps a a = false
               <-> exists s e, start a = Some s /\ stop a = Some e /\ (e < s)%Z).
  { rewrite spec_overlaps_false. split.
    - intros [H | (e & s & He & Hs & Hlt)]; [exact H | eauto].
    - intros H. now left. }
  rewrite !overlaps_eq. split.
  - rewrite <- Hf. split; [intros H; now injection H | intros ->; reflexivity].
  - rewrite <- Hf. split.
    + intros H. injection H as ->. discriminate.
    + intros H. destruct (spec_overlaps a a); [reflexivity | now elim H].
Qed.

(** The bounds are inclusive.  Two ranges in order that share one end
    point overlap; a range that stops at [x] and one that starts at
    [x + 1] do not, whatever their other bounds. *)
Theorem overlaps_inclusive (a_start b_stop : option Z) (x : Z) :
  (forall s, a_start = Some s -> (s <= x)%Z) ->
  (forall e, b_stop = Some e -> (x <= e)%Z) ->
  overlaps (mkInterval a_start (Some x)) (mkInterval (Some x) b_stop)
  = Ok (VBool true)
  /\ overlaps (mkInterval a_start (Some x)) (mkInterval (Some (x + 1)%Z) b_stop)
     = Ok (VBool false).
Proof.
  intros Ha Hb. rewrite !overlaps_eq. split; do 2 f_equal.
  - destruct (spec_overlaps _ _) eqn:H; [reflexivity|]. exfalso.
    apply spec_overlaps_false in H. cbn [start stop] in H.
    destruct H as [(s & e & Hs & He & Hlt) | (e & s & He & Hs & Hlt)].
    + specialize (Ha s Hs). specialize (Hb e He). lia.
    + injection He as <-. injection Hs as <-. lia.
  - apply spec_overlaps_false. right. exists x, (x + 1)%Z. cbn.
    repeat split. lia.
Qed.

(** ** The labellers: errors *)

Lemma resolve_missing (sch : list StructField) (n : string) :
  existsb (matches n) sch = false -> resolve sch n = Err AnalysisException.
Proof.
  intros H. unfold resolve. apply find_index_None in H. now rewrite H.
Qed.

(** Without a column that [colname] resolves to, each of the four
    labellers raises an [AnalysisException], whatever the rows. *)
Theorem labellers_missing_column (frame : DataFrame)
  (colname new_colname : string) :
  existsb (matches colname) (schema frame) = false ->
  label_weekend frame colname new_colname = Err AnalysisException
  /\ label_holidays frame colname new_colname = Err AnalysisException
  /\ label_holidays2 frame colname new_colname = Err AnalysisException
  /\ label_holidays3 frame colname new_colname = Err AnalysisException.
Proof.
  intros H. pose proof (resolve_missing _ _ H) as Hres.
  unfold label_weekend, label_holidays, label_holidays2, withColumn.
  cbn [typeof]. rewrite Hres. cbn [bind].
  repeat (split; [reflexivity|]).
  unfold label_holidays3, createDataFrame.
  rewrite holiday_rows_conform. cbn [bind]. unfold join.
  apply find_index_None in H. now rewrite H.
Qed.


(** ** The predicate strategy *)

Lemma label_holidays_ok (frame : DataFrame) (colname new_colname : string)
  (i : nat) :
  wf_frame frame = true ->
  resolve (schema frame) colname = Ok i ->
  dataType (field_at (schema frame) i) = DateType ->
  (forall r, In r (rows frame) -> nth i r VNull <> VNull) ->
  label_holidays frame colname new_colname
  = Ok (mkFrame
          (put_field (schema frame) new_colname BooleanType)
          (map (fun r =>
                  put_value (schema frame) new_colname
                    (predicate_value (nth i r VNull)) r)
               (rows frame))).
Proof.
  intros Hwf Hres Hty Hall. unfold label_holidays.
  apply (withColumn_ok frame new_colname _ BooleanType
           (fun r => predicate_value (nth i r VNull))).
  - now apply udf_expr_type with (i := i).
  - intros r Hr. rewrite (udf_expr_value _ _ i) by exact Hres.
    destruct (date_column frame colname i r Hwf Hres Hty Hr) as [_ Hd].
    destruct (date_value _ Hd) as [Hn | [d ->]]; [|reflexivity].
    now elim (Hall r Hr).
Qed.

(** On a frame whose dates are all there, the predicate strategy labels
    every row with the calendar's answer for its date, whatever the
    year. *)
Theorem label_holidays_any_year (frame : DataFrame)
  (colname new_colname : string) (i : nat) :
  wf_frame frame = true ->
  resolve (schema frame) colname = Ok i ->
  dataType (field_at (schema frame) i) = DateType ->
  (forall r, In r (rows frame) -> nth i r VNull <> VNull) ->
  exists out,
    label_holidays frame colname new_colname = Ok out
    /\ List.length (rows out) = List.length (rows frame)
    /\ (exists j, is_col (schema out) new_colname j = true)
    /\ (forall k j d, (k < List.length (rows frame))%nat ->
          is_col (schema out) new_colname j = true ->
          cell frame k i = VDate d ->
          cell out k j = VBool (be_holiday d)).
Proof.
  intros Hwf Hres Hty Hall. eexists. split.
  { now apply label_holidays_ok with (i := i). }
  cbn [schema rows]. split; [apply length_map|].
  split; [apply put_field_has|].
  intros k j d Hk Hj Hd. unfold cell in *. cbn [rows].
  rewrite (nth_map_in (B := list value) _ (rows frame) k (@nil value)
             (@nil value) Hk).
  rewrite put_cell with (t := BooleanType); [| |exact Hj].
  - now rewrite Hd.
  - apply (date_column frame colname i _ Hwf Hres Hty). now apply nth_In.
Qed.


(** ** The membership strategy *)

(** The membership strategy labels a date [true] exactly when it is a
    holiday of one of the years 2015 to 2019, and leaves a null where
    the date is missing. *)
Theorem label_holidays2_labels (frame : DataFrame)
  (colname new_colname : string) (i : nat) :
  wf_frame frame = true ->
  resolve (schema frame) colname = Ok i ->
  dataType (field_at (schema frame) i) = DateType ->
  exists out,
    label_holidays2 frame colname new_colname = Ok out
    /\ (exists j, is_col (schema out) new_colname j = true)
    /\ (forall k j, (k < List.length (rows frame))%nat ->
          is_col (schema out) new_colname j = true ->
          (cell frame k i = VNull -> cell out k j = VNull)
          /\ (forall d, cell frame k i = VDate d ->
                cell out k j
                = VBool (be_holiday d && in_years (range 2015 2020) d))).
Proof.
  intros Hwf Hres Hty. eexists. split.
  { now apply label_holidays2_ok with (i := i). }
  cbn [schema rows]. split; [apply put_field_has|].
  intros k j Hk Hj. unfold cell. cbn [rows].
  rewrite (nth_map_in (B := list value) _ (rows frame) k (@nil value)
             (@nil value) Hk).
  rewrite put_cell with (t := BooleanType); [| |exact Hj].
  - split.
    + intros ->. reflexivity.
    + intros d ->. cbn [membership_value]. now rewrite member_holidays_BE.
  - apply (date_column frame colname i _ Hwf Hres Hty). now apply nth_In.
Qed.

(** ** Membership against predicate, join against membership *)

(** On a frame whose dates are all there, the membership strategy
    returns what the predicate strategy returns exactly when every
    holiday among the frame's dates falls in the years 2015 to 2019. *)
Theorem membership_is_predicate_iff (frame : DataFrame)
  (colname new_colname : string) (i : nat) :
  wf_frame frame = true ->
  resolve (schema frame) colname = Ok i ->
  dataType (field_at (schema frame) i) = DateType ->
  (forall r, In r (rows frame) -> nth i r VNull <> VNull) ->
  label_holidays2 frame colname new_colname
  = label_holidays frame colname new_colname
  <-> (forall r d, In r (rows frame) -> nth i r VNull = VDate d ->
         be_holiday d = true -> in_years (range 2015 2020) d = true).
Proof.
  intros Hwf Hres Hty Hall.
  rewrite (label_holidays_ok frame colname new_colname i Hwf Hres Hty Hall).
  rewrite (label_holidays2_ok frame colname new_colname i Hwf Hres Hty).
  set (keys := holidays_BE (range 2015 2020)).
  destruct (put_field_has (schema frame) new_colname BooleanType) as (j & Hj).
  split.
  - intros H r d Hr Hd Hh. injection H as H.
    rewrite map_ext_in_iff in H. specialize (H r Hr).
    apply (f_equal (fun row => nth j row VNull)) in H.
    destruct (date_column frame colname i r Hwf Hres Hty Hr) as [Hlen _].
    rewrite !put_cell with (t := BooleanType) in H by assumption.
    rewrite Hd in H. cbn [membership_value predicate_value] in H.
    unfold keys in H. rewrite member_holidays_BE, Hh in H.
    now injection H.
  - intros H. do 2 f_equal. apply map_ext_in. intros r Hr. f_equal.
    destruct (date_column frame colname i r Hwf Hres Hty Hr) as [_ Hd].
    destruct (date_value _ Hd) as [-> | [d Hv]]; [reflexivity|].
    rewrite Hv. cbn [membership_value predicate_value]. f_equal.
    unfold keys. rewrite member_holidays_BE.
    destruct (be_holiday d) eqn:Hh; [|reflexivity].
    now rewrite (H r d Hr Hv Hh).
Qed.

(** The join strategy has the downsides of the membership strategy and
    no other, for dates that are there: on a frame with a date column
    and no column of the output name yet, both give every present date,
    of whatever year, the same label.  They part on a missing date,
    which membership leaves unlabelled and the join labels [false]. *)
Theorem join_agrees_with_membership (frame : DataFrame)
  (colname new_colname : string) (i : nat) :
  wf_frame frame = true ->
  resolve (schema frame) colname = Ok i ->
  dataType (field_at (schema frame) i) = DateType ->
  existsb (matches new_colname) (schema frame) = false ->
  exists o2 o3 p2 p3,
    label_holidays2 frame colname new_colname = Ok o2
    /\ label_holidays3 frame colname new_colname = Ok o3
    /\ select2 o2 colname new_colname = Ok p2
    /\ select2 o3 colname new_colname = Ok p3
    /\ List.length p2 = List.length (rows frame)
    /\ List.length p3 = List.length (rows frame)
    /\ (forall k, (k < List.length (rows frame))%nat ->
          (forall d, cell frame k i = VDate d ->
             nth k p2 (VNull, VNull)
             = (VDate d, VBool (be_holiday d && in_years (range 2015 2020) d))
             /\ nth k p3 (VNull, VNull) = nth k p2 (VNull, VNull))
          /\ (cell frame k i = VNull ->
              nth k p2 (VNull, VNull) = (VNull, VNull)
              /\ nth k p3 (VNull, VNull) = (VNull, VBool false))).
Proof.
  intros Hwf Hres Hty Hfresh.
  set (keys := holidays_BE (range 2015 2020)).
  assert (Hlen : forall r, In r (rows frame) ->
                           List.length r = List.length (schema frame)).
  { intros r Hr. now apply (date_column frame colname i r Hwf Hres Hty Hr). }
  do 2 eexists.
  exists (map (fun r => (nth i r VNull, membership_value keys (nth i r VNull)))
              (rows frame)),
    (map (fun r => (nth i r VNull, join_value keys (nth i r VNull)))
         (rows frame)).
  split; [now apply label_holidays2_ok with (i := i)|].
  split; [now apply label_holidays3_ok with (i := i)|].
  split; [now apply select2_appended|].
  split; [now apply select2_joined|].
  split; [apply length_map|]. split; [apply length_map|].
  intros k Hk. unfold cell.
  rewrite !(nth_map_in (B := value * value) _ (rows frame) k (@nil value)
              (VNull, VNull) Hk).
  split.
  - intros d ->. cbn [membership_value join_value]. unfold keys.
    now rewrite member_holidays_BE.
  - intros ->. split; reflexivity.
Qed.

(** The join strategy does not accept a frame that already has a column
    of the output name: the joined frame holds two, and the fill raises on
    the ambiguous name.  So a frame it has labelled it cannot
    label again. *)
Theorem label_holidays3_rejects_labelled (frame : DataFrame)
  (colname new_colname : string) (i : nat) :
  wf_frame frame = true ->
  resolve (schema frame) colname = Ok i ->
  dataType (field_at (schema frame) i) = DateType ->
  resolver colname new_colname = false ->
  (existsb (matches new_colname) (schema frame) = true ->
   label_holidays3 frame colname new_colname = Err AnalysisException)
  /\ (existsb (matches new_colname) (schema frame) = false ->
      exists g,
        label_holidays3 frame colname new_colname = Ok g
        /\ label_holidays3 g colname new_colname = Err AnalysisException).
Proof.
  intros Hwf Hres Hty Hap. split.
  - intros Hhas. now apply label_holidays3_ambiguous with (i := i).
  - intros Hfresh. now apply label_holidays3_relabel with (i := i).
Qed.

(** ** Frames stay well formed, and labellers chain *)

Lemma row_conforms_app (s1 s2 : list StructField) (r1 r2 : Row) :
  List.length r1 = List.length s1 ->
  row_conforms (s1 ++ s2) (r1 ++ r2)
  = row_conforms s1 r1 && row_conforms s2 r2.
Proof.
  revert r1. induction s1 as [|f s1 IH]; intros [|x r1]; cbn;
    try discriminate; [reflexivity|].
  intros Hl. rewrite IH by now injection Hl. now rewrite andb_assoc.
Qed.

Lemma replace_conforms (sch : list StructField) (n : string) (t : DataType)
  (v : value) (r : Row) :
  row_conforms sch r = true -> has_type t v = true ->
  row_conforms (map (fun f => if matches n f then mkField n t else f) sch)
               (replace_values sch n v r) = true.
Proof.
  intros Hr Hv. revert r Hr.
  induction sch as [|f sch IH]; intros [|x r]; cbn; try discriminate;
    [reflexivity|].
  intros H. apply andb_true_iff in H as [Hx Hr].
  rewrite (IH r Hr), andb_true_r.
  destruct (matches n f); [exact Hv | exact Hx].
Qed.

Lemma put_conforms (sch : list StructField) (n : string) (t : DataType)
  (v : value) (r : Row) :
  row_conforms sch r = true -> has_type t v = true ->
  row_conforms (put_field sch n t) (put_value sch n v r) = true.
Proof.
  intros Hr Hv. unfold put_field, put_value.
  destruct (existsb (matches n) sch).
  - now apply replace_conforms.
  - rewrite row_conforms_app by now apply row_conforms_length.
    rewrite Hr. cbn. now rewrite Hv.
Qed.

Lemma mapM_In_inv {A B} (f : A -> result B) (l : list A) (out : list B) (y : B) :
  mapM f l = Ok out -> In y out -> exists x, In x l /\ f x = Ok y.
Proof.
  revert out. induction l as [|x l IH]; cbn [mapM]; intros out H Hy.
  - injection H as <-. contradiction.
  - destruct (f x) as [z|e] eqn:Hz; [|discriminate]. cbn [bind] in H.
    destruct (mapM f l) as [zs|e]; [|discriminate]. cbn [bind] in H.
    injection H as <-. destruct Hy as [<-|Hy].
    + exists x. split; [now left | exact Hz].
    + destruct (IH zs eq_refl Hy) as (x' & Hin & Hx'). exists x'.
      split; [now right | exact Hx'].
Qed.

(** [withColumn] keeps a frame well formed when the values of the new
    column have its type. *)
Lemma withColumn_wf (df g : DataFrame) (n : string) (c : Column) :
  wf_frame df = true ->
  (forall t r v, typeof (schema df) c = Ok t ->
                 eval (schema df) r c = Ok v -> has_type t v = true) ->
  withColumn df n c = Ok g -> wf_frame g = true.
Proof.
  intros Hwf Hty H. unfold withColumn in H.
  destruct (typeof (schema df) c) as [t|e] eqn:Ht; [|discriminate].
  cbn [bind] in H.
  destruct (mapM _ (rows df)) as [out|e] eqn:Hm; [|discriminate].
  cbn [bind] in H. injection H as <-.
  unfold wf_frame. cbn [schema rows]. apply forallb_forall. intros r' Hr'.
  destruct (mapM_In_inv _ _ _ _ Hm Hr') as (r & Hr & Hf).
  destruct (eval (schema df) r c) as [v|e] eqn:Hv; [|discriminate].
  cbn [bind] in Hf. injection Hf as <-.
  apply put_conforms; [now apply wf_frame_In | now apply (Hty t r v)].
Qed.

Lemma isin_typed (sch : list StructField) (a : Column) (vs : list value)
  (t : DataType) (r : Row) (v : value) :
  typeof sch (isin a vs) = Ok t -> eval sch r (isin a vs) = Ok v ->
  has_type t v = true.
Proof.
  cbn [typeof eval]. intros Ht Hv.
  destruct (typeof sch a) as [s|e]; [|discriminate]. cbn [bind] in Ht.
  destruct (forallb (has_type s) vs); [|discriminate]. injection Ht as <-.
  destruct (eval sch r a) as [x|e]; [|discriminate]. cbn [bind] in Hv.
  injection Hv as <-. unfold eval_isin.
  destruct x; try reflexivity;
    destruct (existsb _ vs); try reflexivity;
    destruct (existsb is_null vs); reflexivity.
Qed.

Lemma holiday_udf_typed (sch : list StructField) (a : Column)
  (t : DataType) (r : Row) (v : value) :
  typeof sch (udf is_belgian_holiday BooleanType a) = Ok t ->
  eval sch r (udf is_belgian_holiday BooleanType a) = Ok v ->
  has_type t v = true.
Proof.
  cbn [typeof eval]. intros Ht Hv.
  destruct (typeof sch a) as [s|e]; [|discriminate]. cbn [bind] in Ht.
  injection Ht as <-.
  destruct (eval sch r a) as [x|e]; [|discriminate]. cbn [bind] in Hv.
  destruct x; cbn in Hv; try discriminate. now injection Hv as <-.
Qed.

Lemma joined_conforms (sch : list StructField) (n : string) (i : nat)
  (r : Row) (b : bool) :
  (i < List.length sch)%nat -> row_conforms sch r = true ->
  row_conforms (field_at sch i :: remove_nth i sch ++ [mkField n BooleanType])
               (nth i r VNull :: remove_nth i r ++ [VBool b]) = true.
Proof.
  intros Hi Hr. unfold field_at.
  destruct (nth_split sch (mkField "" NullType) Hi) as (pre & post & Hs & Hl).
  remember (nth i sch (mkField "" NullType)) as f eqn:Hf. clear Hf.
  subst sch i.
  destruct (row_conforms_split _ _ _ _ Hr) as (rpre & x & rpost & -> & Hlen & Hx & _).
  rewrite remove_nth_at. rewrite <- Hlen. rewrite nth_at, remove_nth_at.
  rewrite row_conforms_app in Hr by exact Hlen.
  apply andb_true_iff in Hr as [Hpre Hpost]. cbn [row_conforms] in Hpost.
  apply andb_true_iff in Hpost as [_ Hpost].
  cbn [row_conforms]. rewrite Hx. cbn [andb].
  rewrite row_conforms_app
    by (rewrite !length_app; apply row_conforms_length in Hpost; lia).
  rewrite row_conforms_app by exact Hlen.
  now rewrite Hpre, Hpost.
Qed.

(** Each labeller hands on a well-formed frame: every row of its result
    has one value of the right type per field of the result's schema. *)
Theorem labellers_keep_well_formed (frame : DataFrame)
  (colname new_colname : string) :
  wf_frame frame = true ->
  (forall g, label_weekend frame colname new_colname = Ok g ->
             wf_frame g = true)
  /\ (forall g, label_holidays frame colname new_colname = Ok g ->
                wf_frame g = true)
  /\ (forall g, label_holidays2 frame colname new_colname = Ok g ->
                wf_frame g = true)
  /\ (forall g i,
        resolve (schema frame) colname = Ok i ->
        dataType (field_at (schema frame) i) = DateType ->
        existsb (matches new_colname) (schema frame) = false ->
        label_holidays3 frame colname new_colname = Ok g ->
        wf_frame g = true).
Proof.
  intros Hwf.
  split; [|split; [|split]].
  - intros g. apply withColumn_wf; [exact Hwf|].
    intros t r v. apply isin_typed.
  - intros g. apply withColumn_wf; [exact Hwf|].
    intros t r v. apply holiday_udf_typed.
  - intros g. apply withColumn_wf; [exact Hwf|].
    intros t r v. apply isin_typed.
  - intros g i Hres Hty Hfresh H.
    rewrite (label_holidays3_ok frame colname new_colname i Hwf Hres Hty Hfresh)
      in H.
    injection H as <-. unfold wf_frame. cbn [schema rows].
    apply forallb_forall. intros r' Hr'.
    apply in_map_iff in Hr' as (r & <- & Hr).
    pose proof (resolve_lt _ _ _ Hres) as Hi.
    pose proof (wf_frame_In frame r Hwf Hr) as Hc.
    assert (Hb : exists b, join_value (holidays_BE (range 2015 2020))
                                      (nth i r VNull) = VBool b)
      by (destruct (nth i r VNull); cbn [join_value]; eauto).
    destruct Hb as (b & ->). now apply joined_conforms.
Qed.

Lemma label_weekend_appends (frame : DataFrame) (colname new_colname : string)
  (i : nat) :
  wf_frame frame = true ->
  resolve (schema frame) colname = Ok i ->
  dataType (field_at (schema frame) i) = DateType ->
  existsb (matches new_colname) (schema frame) = false ->
  label_weekend frame colname new_colname
  = Ok (mkFrame (schema frame ++ [mkField new_colname BooleanType])
                (map (fun r => r ++ [weekend_value (nth i r VNull)])
                     (rows frame))).
Proof.
  intros Hwf Hres Hty Hfresh. unfold label_weekend.
  rewrite (withColumn_ok frame new_colname _ BooleanType
             (fun r => weekend_value (nth i r VNull))).
  - unfold put_field, put_value. now rewrite Hfresh.
  - now apply weekend_expr_type with (i := i).
  - intros r Hr. apply weekend_expr_value; [exact Hres|].
    now apply (date_column frame colname i r Hwf Hres Hty Hr).
Qed.

Lemma label_holidays2_appends (frame : DataFrame)
  (colname new_colname : string) (i : nat) :
  wf_frame frame = true ->
  resolve (schema frame) colname = Ok i ->
  dataType (field_at (schema frame) i) = DateType ->
  existsb (matches new_colname) (schema frame) = false ->
  label_holidays2 frame colname new_colname
  = Ok (mkFrame (schema frame ++ [mkField new_colname BooleanType])
                (map (fun r =>
                        r ++ [membership_value (holidays_BE (range 2015 2020))
                                               (nth i r VNull)])
                     (rows frame))).
Proof.
  intros Hwf Hres Hty Hfresh.
  rewrite (label_holidays2_ok frame colname new_colname i Hwf Hres Hty).
  unfold put_field, put_value. now rewrite Hfresh.
Qed.

(** What a later labeller needs of a frame that got a boolean column
    appended: it is well formed and the date column is where it was. *)
Lemma appended_frame (frame : DataFrame) (colname n m : string) (i : nat)
  (v : Row -> value) :
  wf_frame frame = true ->
  resolve (schema frame) colname = Ok i ->
  existsb (matches n) (schema frame) = false ->
  existsb (matches m) (schema frame) = false ->
  resolver n m = false ->
  (forall r, has_type BooleanType (v r) = true) ->
  let g := mkFrame (schema frame ++ [mkField n BooleanType])
                   (map (fun r => r ++ [v r]) (rows frame)) in
  wf_frame g = true
  /\ resolve (schema g) colname = Ok i
  /\ field_at (schema g) i = field_at (schema frame) i
  /\ existsb (matches m) (schema g) = false.
Proof.
  intros Hwf Hres Hn Hm Hnm Hv g. subst g. cbn [schema rows].
  pose proof (resolve_lt _ _ _ Hres) as Hi.
  split; [|split; [|split]].
  - unfold wf_frame. cbn [schema rows]. apply forallb_forall. intros r' Hr'.
    apply in_map_iff in Hr' as (r & <- & Hr).
    pose proof (wf_frame_In frame r Hwf Hr) as Hc.
    rewrite row_conforms_app by now apply row_conforms_length.
    rewrite Hc. cbn. now rewrite Hv.
  - rewrite resolve_app_nomatch; [exact Hres|].
    apply matches_renamed. now apply fresh_apart with (1 := Hres).
  - unfold field_at. now apply app_nth1.
  - rewrite existsb_app, Hm. cbn. rewrite orb_false_r.
    unfold matches. cbn. exact Hnm.
Qed.

Lemma weekend_value_typed (v : value) :
  has_type BooleanType (weekend_value v) = true.
Proof. destruct v; reflexivity. Qed.

Lemma membership_value_typed (keys : list Z) (v : value) :
  has_type BooleanType (membership_value keys v) = true.
Proof. destruct v; reflexivity. Qed.

(** The weekend labeller and the membership strategy chain in either
    order on a frame with a date column and neither output column yet:
    both orders succeed and give every row the same two labels, the
    ones each labeller gives on its own, appended in the order of the
    calls. *)
Theorem weekend_and_holiday_labels_chain (frame : DataFrame)
  (colname weekend_col holiday_col : string) (i : nat) :
  wf_frame frame = true ->
  resolve (schema frame) colname = Ok i ->
  dataType (field_at (schema frame) i) = DateType ->
  existsb (matches weekend_col) (schema frame) = false ->
  existsb (matches holiday_col) (schema frame) = false ->
  resolver weekend_col holiday_col = false ->
  (g <- label_weekend frame colname weekend_col ;;
   label_holidays2 g colname holiday_col)
  = Ok (mkFrame
          (schema frame ++ [mkField weekend_col BooleanType;
                            mkField holiday_col BooleanType])
          (map (fun r =>
                  r ++ [weekend_value (nth i r VNull);
                        membership_value (holidays_BE (range 2015 2020))
                                         (nth i r VNull)])
               (rows frame)))
  /\ (g <- label_holidays2 frame colname holiday_col ;;
      label_weekend g colname weekend_col)
     = Ok (mkFrame
             (schema frame ++ [mkField holiday_col BooleanType;
                               mkField weekend_col BooleanType])
             (map (fun r =>
                     r ++ [membership_value (holidays_BE (range 2015 2020))
                                            (nth i r VNull);
                           weekend_value (nth i r VNull)])
                  (rows frame))).
Proof.
  intros Hwf Hres Hty Hw Hh Hwh.
  pose proof (resolve_lt _ _ _ Hres) as Hi.
  assert (Hin : forall r, In r (rows frame) -> (i < List.length r)%nat).
  { intros r Hr.
    destruct (date_column frame colname i r Hwf Hres Hty Hr) as [Hl _].
    now rewrite Hl. }
  split.
  - rewrite (label_weekend_appends frame colname weekend_col i Hwf Hres Hty Hw).
    cbn [bind].
    destruct (appended_frame frame colname weekend_col holiday_col i
                (fun r => weekend_value (nth i r VNull))
                Hwf Hres Hw Hh Hwh (fun r => weekend_value_typed _))
      as (Hwf' & Hres' & Hf' & Hh').
    rewrite (label_holidays2_appends _ colname holiday_col i Hwf' Hres'
               (eq_trans (f_equal dataType Hf') Hty) Hh').
    cbn [schema rows]. rewrite <- app_assoc, map_map. do 2 f_equal.
    apply map_ext_in. intros r Hr.
    rewrite <- app_assoc. cbn [app].
    now rewrite app_nth1 by now apply Hin.
  - rewrite (label_holidays2_appends frame colname holiday_col i Hwf Hres Hty Hh).
    cbn [bind].
    assert (Hhw : resolver holiday_col weekend_col = false)
      by now rewrite resolver_sym.
    destruct (appended_frame frame colname holiday_col weekend_col i
                (fun r => membership_value (holidays_BE (range 2015 2020))
                                           (nth i r VNull))
                Hwf Hres Hh Hw Hhw (fun r => membership_value_typed _ _))
      as (Hwf' & Hres' & Hf' & Hw').
    rewrite (label_weekend_appends _ colname weekend_col i Hwf' Hres'
               (eq_trans (f_equal dataType Hf') Hty) Hw').
    cbn [schema rows]. rewrite <- app_assoc, map_map. do 2 f_equal.
    apply map_ext_in. intros r Hr.
    rewrite <- app_assoc. cbn [app].
    now rewrite app_nth1 by now apply Hin.
Qed.

Lemma remove_nth_app {A} (l : list A) (x : A) (i : nat) :
  (i < List.length l)%nat -> remove_nth i (l ++ [x]) = remove_nth i l ++ [x].
Proof.
  intros Hi. unfold remove_nth.
  rewrite firstn_app, skipn_app.
  replace (i - List.length l)%nat with 0%nat by lia.
  replace (S i - List.length l)%nat with 0%nat by lia.
  cbn [firstn skipn]. now rewrite app_nil_r, app_assoc.
Qed.

(** The join strategy chains with the weekend labeller in either order
    on a frame with a date column and neither output column yet.  Both
    orders succeed with the date column first, the other input columns
    after it and the two labels last, in the order of the calls; the
    labels are the ones each labeller gives on its own. *)
Theorem join_and_weekend_labels_chain (frame : DataFrame)
  (colname holiday_col weekend_col : string) (i : nat) :
  wf_frame frame = true ->
  resolve (schema frame) colname = Ok i ->
  dataType (field_at (schema frame) i) = DateType ->
  existsb (matches holiday_col) (schema frame) = false ->
  existsb (matches weekend_col) (schema frame) = false ->
  resolver holiday_col weekend_col = false ->
  (g <- label_holidays3 frame colname holiday_col ;;
   label_weekend g colname weekend_col)
  = Ok (mkFrame
          (field_at (schema frame) i :: remove_nth i (schema frame)
             ++ [mkField holiday_col BooleanType;
                 mkField weekend_col BooleanType])
          (map (fun r =>
                  nth i r VNull :: remove_nth i r
                    ++ [join_value (holidays_BE (range 2015 2020))
                                   (nth i r VNull);
                        weekend_value (nth i r VNull)])
               (rows frame)))
  /\ (g <- label_weekend frame colname weekend_col ;;
      label_holidays3 g colname holiday_col)
     = Ok (mkFrame
             (field_at (schema frame) i :: remove_nth i (schema frame)
                ++ [mkField weekend_col BooleanType;
                    mkField holiday_col BooleanType])
             (map (fun r =>
                     nth i r VNull :: remove_nth i r
                       ++ [weekend_value (nth i r VNull);
                           join_value (holidays_BE (range 2015 2020))
                                      (nth i r VNull)])
                  (rows frame))).
Proof.
  intros Hwf Hres Hty Hh Hw Hhw.
  pose proof (resolve_lt _ _ _ Hres) as Hi.
  assert (Hlen : forall r, In r (rows frame) ->
                           List.length r = List.length (schema frame)).
  { intros r Hr. now apply (date_column frame colname i r Hwf Hres Hty Hr). }
  split.
  - rewrite (label_holidays3_ok frame colname holiday_col i Hwf Hres Hty Hh).
    cbn [bind].
    set (g := mkFrame _ _).
    assert (Hwf' : wf_frame g = true).
    { unfold wf_frame, g. cbn [schema rows]. apply forallb_forall.
      intros r' Hr'. apply in_map_iff in Hr' as (r & <- & Hr).
      assert (Hb : exists b, join_value (holidays_BE (range 2015 2020))
                                        (nth i r VNull) = VBool b)
        by (destruct (nth i r VNull); cbn [join_value]; eauto).
      destruct Hb as (b & ->).
      apply joined_conforms; [exact Hi | now apply wf_frame_In]. }
    assert (Hres' : resolve (schema g) colname = Ok 0%nat).
    { unfold g. cbn [schema]. apply joined_schema_date; [exact Hres|].
      now apply fresh_apart with (1 := Hres). }
    assert (Hw' : existsb (matches weekend_col) (schema g) = false).
    { unfold g. cbn [schema].
      destruct (resolve_split _ _ _ Hres) as (pre & f & post & Hs & <- & _).
      rewrite Hs in *. unfold field_at. rewrite nth_at, remove_nth_at.
      destruct (existsb_around _ _ _ _ Hw) as (Wpre & Wf & Wpost).
      cbn [existsb]. rewrite Wf, !existsb_app, Wpre, Wpost. cbn.
      rewrite orb_false_r. unfold matches. cbn. exact Hhw. }
    rewrite (label_weekend_appends g colname weekend_col 0 Hwf' Hres' Hty Hw').
    unfold g. cbn [schema rows]. rewrite map_map. f_equal. f_equal.
    + cbn [app]. now rewrite <- app_assoc.
    + apply map_ext. intros r. cbn [app nth]. now rewrite <- app_assoc.
  - rewrite (label_weekend_appends frame colname weekend_col i Hwf Hres Hty Hw).
    cbn [bind].
    assert (Hwh : resolver weekend_col holiday_col = false)
      by now rewrite resolver_sym.
    destruct (appended_frame frame colname weekend_col holiday_col i
                (fun r => weekend_value (nth i r VNull))
                Hwf Hres Hw Hh Hwh (fun r => weekend_value_typed _))
      as (Hwf' & Hres' & Hf' & Hh').
    rewrite (label_holidays3_ok _ colname holiday_col i Hwf' Hres'
               (eq_trans (f_equal dataType Hf') Hty) Hh').
    cbn [schema rows]. cbn [schema] in Hf'. rewrite Hf', map_map.
    f_equal. f_equal.
    + rewrite remove_nth_app by exact Hi. cbn [app]. now rewrite <- app_assoc.
    + apply map_ext_in. intros r Hr.
      rewrite remove_nth_app by (rewrite (Hlen r Hr); exact Hi).
      rewrite app_nth1 by (rewrite (Hlen r Hr); exact Hi).
      cbn [app]. now rewrite <- app_assoc.
Qed.

End Spark.

(** * The theorems at the sample frames *)




(** The membership strategy on the sample frame, whose third row is a
    holiday of 2020. *)
Lemma label_holidays2_out_of_range_witness :
  (wf_frame sample_frame = true)
  /\ (resolve false (schema sample_frame) "date" = Ok 1%nat)
  /\ (dataType (field_at (schema sample_frame) 1%nat) = DateType)
  /\ (exists out,
    label_holidays2 false sample_calendar sample_frame "date" "is_belgian_holiday" = Ok out
    /\ List.length (rows out) = List.length (rows sample_frame)
    /\ (exists j, is_col false (schema out) "is_belgian_holiday" j = true)
    /\ (forall k j d, (k < List.length (rows sample_frame))%nat ->
          is_col false (schema out) "is_belgian_holiday" j = true ->
          cell sample_frame k 1%nat = VDate d ->
          in_years (range 2015 2020) d = false ->
          cell out k j = VBool false)).
Proof.
  repeat (split; [reflexivity|]).
  apply (label_holidays2_out_of_range false sample_calendar sample_frame
           "date" "is_belgian_holiday" 1 eq_refl eq_refl eq_refl).
Defined.







(** * Worked examples *)

(** The calendar: 1970-01-01 is day 0, a Thursday; the years 2015 to
    2019 are the days 16436 to 18261; 2018-05-12 is a Saturday,
    2018-05-13 a Sunday, 2018-05-16 a Wednesday. *)
Example calendar_facts :
  days_from_civil 1970 1 1 = 0%Z
  /\ day_of_week 0 = 5%Z
  /\ days_from_civil 2015 1 1 = 16436%Z
  /\ days_from_civil 2019 12 31 = 18261%Z
  /\ days_from_civil 2020 1 1 = 18262%Z
  /\ List.length (flat_map dates_of_year (range 2015 2020)) = 1826%nat
  /\ day_of_week (days_from_civil 2018 5 12) = 7%Z
  /\ day_of_week (days_from_civil 2018 5 13) = 1%Z
  /\ day_of_week (days_from_civil 2018 5 16) = 4%Z.
Proof. repeat split; vm_compute; reflexivity. Qed.

(** The file's worked table, column by column as it would be shown. *)
Example worked_table_labels :
  (out <- withColumn false worked_table "are overlapping ranges"
                     (ranges_overlap (col "a") (col "b") (col "c") (col "d")) ;;
   Ok (map (fun r => nth 4 r VNull) (rows out)))
  = Ok (map VBool [false; true; true; true; false; true;
                   true; true; false; false; true; true]).
Proof. vm_compute. reflexivity. Qed.

(** Where the three strategies part: on a date outside 2015-2019 that
    is a holiday the predicate strategy says [true] and the other two
    [false]; on a missing date the predicate strategy raises, the
    membership strategy leaves a null and the join strategy fills in
    [false]. *)
Example strategies_outside_their_domain :
  let out_of_range :=
    mkFrame sample_schema [[VLong 3; VDate (days_from_civil 2020 1 1)]] in
  let missing := mkFrame sample_schema [[VLong 4; VNull]] in
  select2 false out_of_range "date" "id" = Ok [(VDate 18262, VLong 3)]
  /\ (g <- label_holidays false sample_calendar out_of_range "date" "h" ;;
      select2 false g "date" "h") = Ok [(VDate 18262, VBool true)]
  /\ (g <- label_holidays2 false sample_calendar out_of_range "date" "h" ;;
      select2 false g "date" "h") = Ok [(VDate 18262, VBool false)]
  /\ (g <- label_holidays3 false sample_calendar out_of_range "date" "h" ;;
      select2 false g "date" "h") = Ok [(VDate 18262, VBool false)]
  /\ label_holidays false sample_calendar missing "date" "h"
     = Err PythonException
  /\ (g <- label_holidays2 false sample_calendar missing "date" "h" ;;
      select2 false g "date" "h") = Ok [(VNull, VNull)]
  /\ (g <- label_holidays3 false sample_calendar missing "date" "h" ;;
      select2 false g "date" "h") = Ok [(VNull, VBool false)].
Proof. repeat split; vm_compute; reflexivity. Qed.

(** * The further properties at the sample frames *)

(** [ranges_overlap] on literal bounds: a range open to the right that
    starts after the other stops. *)
Lemma ranges_overlap_false_iff_witness :
  (eval false [] [] (lit (VLong 0))
   = Ok (bound (start (mkInterval (Some 0%Z) None))))
  /\ (eval false [] [] (lit VNull)
      = Ok (bound (stop (mkInterval (Some 0%Z) None))))
  /\ (eval false [] [] (lit (VLong (-5)))
      = Ok (bound (start (mkInterval (Some (-5)%Z) (Some (-1)%Z)))))
  /\ (eval false [] [] (lit (VLong (-1)))
      = Ok (bound (stop (mkInterval (Some (-5)%Z) (Some (-1)%Z)))))
  /\ ((exists v,
         eval false [] []
              (ranges_overlap (lit (VLong 0)) (lit VNull)
                              (lit (VLong (-5))) (lit (VLong (-1))))
         = Ok (VBool v))
      /\ (eval false [] []
               (ranges_overlap (lit (VLong 0)) (lit VNull)
                               (lit (VLong (-5))) (lit (VLong (-1))))
          = Ok (VBool false)
          <-> (exists s e,
                 start (mkInterval (Some 0%Z) None) = Some s
                 /\ stop (mkInterval (Some (-5)%Z) (Some (-1)%Z)) = Some e
                 /\ (e < s)%Z)
              \/ (exists e s,
                    stop (mkInterval (Some 0%Z) None) = Some e
                    /\ start (mkInterval (Some (-5)%Z) (Some (-1)%Z)) = Some s
                    /\ (e < s)%Z))).
Proof.
  repeat (split; [reflexivity|]).
  apply (ranges_overlap_false_iff false [] [] (lit (VLong 0)) (lit VNull)
           (lit (VLong (-5))) (lit (VLong (-1)))
           (mkInterval (Some 0%Z) None)
           (mkInterval (Some (-5)%Z) (Some (-1)%Z))
           eq_refl eq_refl eq_refl eq_refl).
Defined.

(** Widening [0, 5] to "from -1 on" keeps its overlap with [5, 10]. *)
Lemma overlaps_widen_witness :
  (start (mkInterval (Some (-1)%Z) None) = None
   \/ exists s s',
        start (mkInterval (Some 0%Z) (Some 5%Z)) = Some s
        /\ start (mkInterval (Some (-1)%Z) None) = Some s' /\ (s' <= s)%Z)
  /\ (stop (mkInterval (Some (-1)%Z) None) = None
      \/ exists e e',
           stop (mkInterval (Some 0%Z) (Some 5%Z)) = Some e
           /\ stop (mkInterval (Some (-1)%Z) None) = Some e' /\ (e <= e')%Z)
  /\ (overlaps false (mkInterval (Some 0%Z) (Some 5%Z))
               (mkInterval (Some 5%Z) (Some 10%Z))
      = Ok (VBool true))
  /\ (overlaps false (mkInterval (Some (-1)%Z) None)
               (mkInterval (Some 5%Z) (Some 10%Z))
      = Ok (VBool true)).
Proof.
  assert (H1 : start (mkInterval (Some (-1)%Z) None) = None
               \/ exists s s',
                    start (mkInterval (Some 0%Z) (Some 5%Z)) = Some s
                    /\ start (mkInterval (Some (-1)%Z) None) = Some s'
                    /\ (s' <= s)%Z).
  { right. exists 0%Z, (-1)%Z. repeat split. lia. }
  assert (H2 : stop (mkInterval (Some (-1)%Z) None) = None
               \/ exists e e',
                    stop (mkInterval (Some 0%Z) (Some 5%Z)) = Some e
                    /\ stop (mkInterval (Some (-1)%Z) None) = Some e'
                    /\ (e <= e')%Z).
  { left. reflexivity. }
  split; [exact H1|]. split; [exact H2|]. split; [reflexivity|].
  apply (overlaps_widen false (mkInterval (Some 0%Z) (Some 5%Z))
           (mkInterval (Some (-1)%Z) None)
           (mkInterval (Some 5%Z) (Some 10%Z)) H1 H2 eq_refl).
Defined.

(** The reigns the file lists for George VI, 1936 to 1952, and
    Elizabeth II, from 1952 on, share the year 1952. *)
Lemma overlaps_inclusive_witness :
  (forall s, Some 1936%Z = Some s -> (s <= 1952)%Z)
  /\ (forall e, @None Z = Some e -> (1952 <= e)%Z)
  /\ (overlaps false (mkInterval (Some 1936%Z) (Some 1952%Z))
               (mkInterval (Some 1952%Z) None)
      = Ok (VBool true)
      /\ overlaps false (mkInterval (Some 1936%Z) (Some 1952%Z))
                  (mkInterval (Some (1952 + 1)%Z) None)
         = Ok (VBool false)).
Proof.
  assert (H1 : forall s, Some 1936%Z = Some s -> (s <= 1952)%Z).
  { intros s H. injection H as <-. lia. }
  assert (H2 : forall e, @None Z = Some e -> (1952 <= e)%Z).
  { intros e H. discriminate H. }
  split; [exact H1|]. split; [exact H2|].
  apply (overlaps_inclusive false (Some 1936%Z) None 1952%Z H1 H2).
Defined.

(** The sample frame has no column [day]. *)
Lemma labellers_missing_column_witness :
  (existsb (matches false "day") (schema sample_frame) = false)
  /\ (label_weekend false sample_frame "day" "is_belgian_holiday" = Err AnalysisException
  /\ label_holidays false sample_calendar sample_frame "day" "is_belgian_holiday" = Err AnalysisException
  /\ label_holidays2 false sample_calendar sample_frame "day" "is_belgian_holiday" = Err AnalysisException
  /\ label_holidays3 false sample_calendar sample_frame "day" "is_belgian_holiday" = Err AnalysisException).
Proof.
  split; [reflexivity|].
  apply (labellers_missing_column false sample_calendar sample_frame
           "day" "is_belgian_holiday" eq_refl).
Defined.

(** The predicate strategy on the sample rows whose dates are there, one
    of them a holiday of 2020. *)
Lemma label_holidays_any_year_witness :
  (wf_frame sample_frame_present = true)
  /\ (resolve false (schema sample_frame_present) "date" = Ok 1%nat)
  /\ (dataType (field_at (schema sample_frame_present) 1%nat) = DateType)
  /\ ((forall r, In r (rows sample_frame_present) -> nth 1%nat r VNull <> VNull))
  /\ (exists out,
    label_holidays false sample_calendar sample_frame_present "date" "is_belgian_holiday" = Ok out
    /\ List.length (rows out) = List.length (rows sample_frame_present)
    /\ (exists j, is_col false (schema out) "is_belgian_holiday" j = true)
    /\ (forall k j d, (k < List.length (rows sample_frame_present))%nat ->
          is_col false (schema out) "is_belgian_holiday" j = true ->
          cell sample_frame_present k 1%nat = VDate d ->
          cell out k j = VBool (sample_calendar d))).
Proof.
  assert (Hall : forall r : Row,
            In r (rows sample_frame_present) -> nth 1 r VNull <> VNull).
  { intros r [<-|[<-|[<-|[]]]]; discriminate. }
  repeat (split; [first [reflexivity | exact Hall]|]).
  apply (label_holidays_any_year false sample_calendar sample_frame_present
           "date" "is_belgian_holiday" 1 eq_refl eq_refl eq_refl Hall).
Defined.


(** The membership strategy on the sample frame. *)
Lemma label_holidays2_labels_witness :
  (wf_frame sample_frame = true)
  /\ (resolve false (schema sample_frame) "date" = Ok 1%nat)
  /\ (dataType (field_at (schema sample_frame) 1%nat) = DateType)
  /\ (exists out,
    label_holidays2 false sample_calendar sample_frame "date" "is_belgian_holiday" = Ok out
    /\ (exists j, is_col false (schema out) "is_belgian_holiday" j = true)
    /\ (forall k j, (k < List.length (rows sample_frame))%nat ->
          is_col false (schema out) "is_belgian_holiday" j = true ->
          (cell sample_frame k 1%nat = VNull -> cell out k j = VNull)
          /\ (forall d, cell sample_frame k 1%nat = VDate d ->
                cell out k j
                = VBool (sample_calendar d && in_years (range 2015 2020) d)))).
Proof.
  repeat (split; [reflexivity|]).
  apply (label_holidays2_labels false sample_calendar sample_frame
           "date" "is_belgian_holiday" 1 eq_refl eq_refl eq_refl).
Defined.

(** Membership against predicate on the sample rows whose dates are
    there. *)
Lemma membership_is_predicate_iff_witness :
  (wf_frame sample_frame_present = true)
  /\ (resolve false (schema sample_frame_present) "date" = Ok 1%nat)
  /\ (dataType (field_at (schema sample_frame_present) 1%nat) = DateType)
  /\ ((forall r, In r (rows sample_frame_present) -> nth 1%nat r VNull <> VNull))
  /\ (label_holidays2 false sample_calendar sample_frame_present "date" "is_belgian_holiday"
  = label_holidays false sample_calendar sample_frame_present "date" "is_belgian_holiday"
  <-> (forall r d, In r (rows sample_frame_present) -> nth 1%nat r VNull = VDate d ->
         sample_calendar d = true -> in_years (range 2015 2020) d = true)).
Proof.
  assert (Hall : forall r : Row,
            In r (rows sample_frame_present) -> nth 1 r VNull <> VNull).
  { intros r [<-|[<-|[<-|[]]]]; discriminate. }
  repeat (split; [first [reflexivity | exact Hall]|]).
  apply (membership_is_predicate_iff false sample_calendar sample_frame_present
           "date" "is_belgian_holiday" 1 eq_refl eq_refl eq_refl Hall).
Defined.

(** Join against membership on the sample frame. *)
Lemma join_agrees_with_membership_witness :
  (wf_frame sample_frame = true)
  /\ (resolve false (schema sample_frame) "date" = Ok 1%nat)
  /\ (dataType (field_at (schema sample_frame) 1%nat) = DateType)
  /\ (existsb (matches false "is_belgian_holiday") (schema sample_frame) = false)
  /\ (exists o2 o3 p2 p3,
    label_holidays2 false sample_calendar sample_frame "date" "is_belgian_holiday" = Ok o2
    /\ label_holidays3 false sample_calendar sample_frame "date" "is_belgian_holiday" = Ok o3
    /\ select2 false o2 "date" "is_belgian_holiday" = Ok p2
    /\ select2 false o3 "date" "is_belgian_holiday" = Ok p3
    /\ List.length p2 = List.length (rows sample_frame)
    /\ List.length p3 = List.length (rows sample_frame)
    /\ (forall k, (k < List.length (rows sample_frame))%nat ->
          (forall d, cell sample_frame k 1%nat = VDate d ->
             nth k p2 (VNull, VNull)
             = (VDate d, VBool (sample_calendar d && in_years (range 2015 2020) d))
             /\ nth k p3 (VNull, VNull) = nth k p2 (VNull, VNull))
          /\ (cell sample_frame k 1%nat = VNull ->
              nth k p2 (VNull, VNull) = (VNull, VNull)
              /\ nth k p3 (VNull, VNull) = (VNull, VBool false)))).
Proof.
  repeat (split; [reflexivity|]).
  apply (join_agrees_with_membership false sample_calendar sample_frame
           "date" "is_belgian_holiday" 1 eq_refl eq_refl eq_refl eq_refl).
Defined.

(** The join strategy on the frame that already has the attribute. *)
Lemma label_holidays3_rejects_labelled_witness :
  (wf_frame sample_labelled = true)
  /\ (resolve false (schema sample_labelled) "date" = Ok 0%nat)
  /\ (dataType (field_at (schema sample_labelled) 0%nat) = DateType)
  /\ (resolver false "date" "is_belgian_holiday" = false)
  /\ ((existsb (matches false "is_belgian_holiday") (schema sample_labelled) = true ->
   label_holidays3 false sample_calendar sample_labelled "date" "is_belgian_holiday" = Err AnalysisException)
  /\ (existsb (matches false "is_belgian_holiday") (schema sample_labelled) = false ->
      exists g,
        label_holidays3 false sample_calendar sample_labelled "date" "is_belgian_holiday" = Ok g
        /\ label_holidays3 false sample_calendar g "date" "is_belgian_holiday" = Err AnalysisException)).
Proof.
  repeat (split; [reflexivity|]).
  apply (label_holidays3_rejects_labelled false sample_calendar sample_labelled
           "date" "is_belgian_holiday" 0 eq_refl eq_refl eq_refl eq_refl).
Defined.

(** The labellers on the sample frame. *)
Lemma labellers_keep_well_formed_witness :
  (wf_frame sample_frame = true)
  /\ ((forall g, label_weekend false sample_frame "date" "is_belgian_holiday" = Ok g ->
             wf_frame g = true)
  /\ (forall g, label_holidays false sample_calendar sample_frame "date" "is_belgian_holiday" = Ok g ->
                wf_frame g = true)
  /\ (forall g, label_holidays2 false sample_calendar sample_frame "date" "is_belgian_holiday" = Ok g ->
                wf_frame g = true)
  /\ (forall g i,
        resolve false (schema sample_frame) "date" = Ok i ->
        dataType (field_at (schema sample_frame) i) = DateType ->
        existsb (matches false "is_belgian_holiday") (schema sample_frame) = false ->
        label_holidays3 false sample_calendar sample_frame "date" "is_belgian_holiday" = Ok g ->
        wf_frame g = true)).
Proof.
  split; [reflexivity|].
  apply (labellers_keep_well_formed false sample_calendar sample_frame
           "date" "is_belgian_holiday" eq_refl).
Defined.

(** The weekend labeller and the membership strategy, one after the
    other, on the sample frame. *)
Lemma weekend_and_holiday_labels_chain_witness :
  (wf_frame sample_frame = true)
  /\ (resolve false (schema sample_frame) "date" = Ok 1%nat)
  /\ (dataType (field_at (schema sample_frame) 1%nat) = DateType)
  /\ (existsb (matches false "is_weekend") (schema sample_frame) = false)
  /\ (existsb (matches false "is_belgian_holiday") (schema sample_frame) = false)
  /\ (resolver false "is_weekend" "is_belgian_holiday" = false)
  /\ ((g <- label_weekend false sample_frame "date" "is_weekend" ;;
   label_holidays2 false sample_calendar g "date" "is_belgian_holiday")
  = Ok (mkFrame
          (schema sample_frame ++ [mkField "is_weekend" BooleanType;
                            mkField "is_belgian_holiday" BooleanType])
          (map (fun r =>
                  r ++ [weekend_value (nth 1%nat r VNull);
                        membership_value (holidays_BE sample_calendar (range 2015 2020))
                                         (nth 1%nat r VNull)])
               (rows sample_frame)))
  /\ (g <- label_holidays2 false sample_calendar sample_frame "date" "is_belgian_holiday" ;;
      label_weekend false g "date" "is_weekend")
     = Ok (mkFrame
             (schema sample_frame ++ [mkField "is_belgian_holiday" BooleanType;
                               mkField "is_weekend" BooleanType])
             (map (fun r =>
                     r ++ [membership_value (holidays_BE sample_calendar (range 2015 2020))
                                            (nth 1%nat r VNull);
                           weekend_value (nth 1%nat r VNull)])
                  (rows sample_frame)))).
Proof.
  repeat (split; [reflexivity|]).
  apply (weekend_and_holiday_labels_chain false sample_calendar sample_frame
           "date" "is_weekend" "is_belgian_holiday" 1
           eq_refl eq_refl eq_refl eq_refl eq_refl eq_refl).
Defined.

(** The join strategy and the weekend labeller, one after the other, on
    the sample frame. *)
Lemma join_and_weekend_labels_chain_witness :
  (wf_frame sample_frame = true)
  /\ (resolve false (schema sample_frame) "date" = Ok 1%nat)
  /\ (dataType (field_at (schema sample_frame) 1%nat) = DateType)
  /\ (existsb (matches false "is_belgian_holiday") (schema sample_frame) = false)
  /\ (existsb (matches false "is_weekend") (schema sample_frame) = false)
  /\ (resolver false "is_belgian_holiday" "is_weekend" = false)
  /\ ((g <- label_holidays3 false sample_calendar sample_frame "date" "is_belgian_holiday" ;;
   label_weekend false g "date" "is_weekend")
  = Ok (mkFrame
          (field_at (schema sample_frame) 1%nat :: remove_nth 1%nat (schema sample_frame)
             ++ [mkField "is_belgian_holiday" BooleanType;
                 mkField "is_weekend" BooleanType])
          (map (fun r =>
                  nth 1%nat r VNull :: remove_nth 1%nat r
                    ++ [join_value (holidays_BE sample_calendar (range 2015 2020))
                                   (nth 1%nat r VNull);
                        weekend_value (nth 1%nat r VNull)])
               (rows sample_frame)))
  /\ (g <- label_weekend false sample_frame "date" "is_weekend" ;;
      label_holidays3 false sample_calendar g "date" "is_belgian_holiday")
     = Ok (mkFrame
             (field_at (schema sample_frame) 1%nat :: remove_nth 1%nat (schema sample_frame)
                ++ [mkField "is_weekend" BooleanType;
                    mkField "is_belgian_holiday" BooleanType])
             (map (fun r =>
                     nth 1%nat r VNull :: remove_nth 1%nat r
                       ++ [weekend_value (nth 1%nat r VNull);
                           join_value (holidays_BE sample_calendar (range 2015 2020))
                                      (nth 1%nat r VNull)])
                  (rows sample_frame)))).
Proof.
  repeat (split; [reflexivity|]).
  apply (join_and_weekend_labels_chain false sample_calendar sample_frame
           "date" "is_belgian_holiday" "is_weekend" 1
           eq_refl eq_refl eq_refl eq_refl eq_refl eq_refl).
Defined.

